(** * termai: a shallow embedding of [termai.py]

    The script loads a JSON configuration (creating it on first run and
    migrating a legacy plaintext key), parses a few command-line flags,
    assembles one request, performs one HTTP POST and prints the reply.

    The embedding threads the file system, the standard input and the
    sequence of observable effects through a small state-and-exception
    monad.  [sys.exit] and ordinary exceptions are kept apart, because
    [except Exception] catches the second and not the first. *)

From Stdlib Require Import List String Ascii ZArith Bool Lia Floats DecimalString.
Import ListNotations.
Local Open Scope string_scope.
Local Open Scope Z_scope.
(* The literals 0.7 and 0.9 are rounded to the nearest binary64 value, as
   Python rounds them. *)
#[local] Set Warnings "-register-all,-inexact-float".

(** ** Python strings

    A [str] is modelled as a Stdlib [string]; a character is a code point
    below 256. *)

Module PyStr.

(** [str.isspace] on one character, for the code points below 256:
    TAB, LF, VT, FF, CR, the separators FS, GS, RS, US, the space,
    NEL (0x85) and the no-break space (0xA0). *)
Definition isspace (c : ascii) : bool :=
  let n := nat_of_ascii c in
  ((9 <=? n) && (n <=? 13))%nat
  || ((28 <=? n) && (n <=? 32))%nat
  || (n =? 133)%nat || (n =? 160)%nat.

(** [s.lstrip()] *)
Fixpoint lstrip (s : string) : string :=
  match s with
  | EmptyString => EmptyString
  | String c s' => if isspace c then lstrip s' else s
  end.

(** [s.rstrip()] *)
Fixpoint rstrip (s : string) : string :=
  match s with
  | EmptyString => EmptyString
  | String c s' =>
      match rstrip s' with
      | EmptyString => if isspace c then EmptyString else String c EmptyString
      | r => String c r
      end
  end.

(** [s.strip()] *)
Definition strip (s : string) : string := rstrip (lstrip s).

(** [sep.join(l)] *)
Definition join (sep : string) (l : list string) : string :=
  String.concat sep l.

(** [sub in s] for two strings: substring test. *)
Fixpoint contains (sub s : string) : bool :=
  prefix sub s ||
  match s with
  | EmptyString => false
  | String _ s' => contains sub s'
  end.

(** [x in l] for a list of strings. *)
Definition mem (x : string) (l : list string) : bool :=
  existsb (String.eqb x) l.

(** [not s]: a string is falsy exactly when it is empty. *)
Definition is_empty (s : string) : bool :=
  match s with EmptyString => true | _ => false end.

(** [str(n)] for an integer. *)
Definition of_Z (z : Z) : string := NilZero.string_of_int (Z.to_int z).

Definition nl : string := String (ascii_of_nat 10) EmptyString.
Definition esc : string := String (ascii_of_nat 27) EmptyString.
Definition dq : string := String (ascii_of_nat 34) EmptyString.

End PyStr.

(** ** JSON values and the Python operations applied to them *)

(** What [json.load] and [response.json()] return, and what [json.dump] and
    [requests.post(..., json=...)] accept.  A [dict] keeps its insertion
    order, so it is an association list; a lookup takes the first binding
    of the key. *)
Inductive json : Type :=
| JNull
| JBool (b : bool)
| JInt (z : Z)
| JFloat (f : float)
| JStr (s : string)
| JArr (items : list json)
| JObj (fields : list (string * json)).

(** The exception classes that the script can meet.  All of them derive
    from [Exception]; [SystemExit] is not one of them (see [result]). *)
Inductive exn : Type :=
| KeyError (key : json)
| IndexError
| TypeError
| AttributeError
| JSONDecodeError
| EOFError
| OSError
| RequestException (info : string)
| RecursionError
| UnicodeDecodeError.

(** The value of a Python expression that may raise. *)
Inductive attempt (A : Type) : Type :=
| Ok (a : A)
| Err (e : exn).
Arguments Ok {A} a.
Arguments Err {A} e.

Module Py.

(** [d.get(k)] on the fields of a dict, as an option. *)
Fixpoint lookup (k : string) (fields : list (string * json)) : option json :=
  match fields with
  | [] => None
  | (k', v) :: rest => if String.eqb k k' then Some v else lookup k rest
  end.

(** [d[k] = v] on the fields of a dict: an existing key keeps its place. *)
Fixpoint update (k : string) (v : json) (fields : list (string * json))
  : list (string * json) :=
  match fields with
  | [] => [(k, v)]
  | (k', v') :: rest =>
      if String.eqb k k' then (k', v) :: rest else (k', v') :: update k v rest
  end.

(** [k == x] for a string [k] and an arbitrary value [x]. *)
Definition str_eq (k : string) (x : json) : bool :=
  match x with
  | JStr s => String.eqb k s
  | _ => false
  end.

(** [k in x] for a string [k]: key test on a dict, element test on a
    list, substring test on a string, [TypeError] on anything else. *)
Definition contains (k : string) (x : json) : attempt bool :=
  match x with
  | JObj fields =>
      Ok (match lookup k fields with Some _ => true | None => false end)
  | JArr items => Ok (existsb (str_eq k) items)
  | JStr s => Ok (PyStr.contains k s)
  | _ => Err TypeError
  end.

(** [x[k]] for a string [k]. *)
Definition getitem (x : json) (k : string) : attempt json :=
  match x with
  | JObj fields =>
      match lookup k fields with
      | Some v => Ok v
      | None => Err (KeyError (JStr k))
      end
  | _ => Err TypeError
  end.

(** [x[0]].  The keys of a parsed JSON object are strings, so [0] is
    never one of them. *)
Definition getitem0 (x : json) : attempt json :=
  match x with
  | JArr [] => Err IndexError
  | JArr (v :: _) => Ok v
  | JStr EmptyString => Err IndexError
  | JStr (String c _) => Ok (JStr (String c EmptyString))
  | JObj _ => Err (KeyError (JInt 0))
  | _ => Err TypeError
  end.

(** [x.get(k, default)]: only a dict has the method. *)
Definition get (x : json) (k : string) (default : json) : attempt json :=
  match x with
  | JObj fields =>
      Ok (match lookup k fields with Some v => v | None => default end)
  | _ => Err AttributeError
  end.

(** [x.strip()]: only a string has the method. *)
Definition strip (x : json) : attempt string :=
  match x with
  | JStr s => Ok (PyStr.strip s)
  | _ => Err AttributeError
  end.

End Py.

(** ** The Python runtime the script relies on

    The JSON codec, the [repr] of floats and containers and the text of an
    exception belong to the interpreter and its libraries, not to the
    script; the development is parametric in them. *)
Record PyLib : Type := {
  (** [json.load] / [response.json()]: [None] when the call raises. *)
  json_loads : string -> option json;
  (** The exception that the call raises on a text it gives no value
      for: [JSONDecodeError] on a text that is not JSON, but also
      [RecursionError] on a text nested too deeply or
      [UnicodeDecodeError] on bytes that do not decode. *)
  json_error : string -> exn;
  (** [json.dump(_, _, indent=4)] *)
  json_dumps : json -> string;
  (** [repr] of a float, a list or a dict *)
  repr_compound : json -> string;
  (** [str(e)] of an exception *)
  exc_str : exn -> string
}.

(** ** The outside world *)

(** The three files below [DATA_DIR]. *)
Inductive file : Type := ConfigFile | OldKeyFile | KeyBak.

(** The contents of [DATA_DIR]; [None] is a file that does not exist. *)
Record Dir : Type := {
  config_file : option string;
  old_key_file : option string;
  key_bak : option string
}.

(** The file system: [None] when [DATA_DIR] itself does not exist, so a
    file never exists without its directory. *)
Definition FS : Type := option Dir.

Definition empty_dir : Dir :=
  {| config_file := None; old_key_file := None; key_bak := None |}.

Definition get_file (p : file) (d : Dir) : option string :=
  match p with
  | ConfigFile => config_file d
  | OldKeyFile => old_key_file d
  | KeyBak => key_bak d
  end.

Definition set_file (p : file) (c : option string) (d : Dir) : Dir :=
  match p with
  | ConfigFile =>
      {| config_file := c; old_key_file := old_key_file d; key_bak := key_bak d |}
  | OldKeyFile =>
      {| config_file := config_file d; old_key_file := c; key_bak := key_bak d |}
  | KeyBak =>
      {| config_file := config_file d; old_key_file := old_key_file d; key_bak := c |}
  end.

(** What [requests.post] gives back: an exception, or a response with its
    [status_code] and [text]. *)
Inductive post_result : Type :=
| PostRaises (e : exn)
| PostResponse (status_code : Z) (text : string).

(** What [subprocess.call] does: it raises, or the child runs and leaves
    the file system in some state. *)
Inductive spawn_result : Type :=
| SpawnRaises (e : exn)
| SpawnDone (after : FS).

(** The observable effects, in the order in which they happen. *)
Inductive event : Type :=
| EMkdir
| ERead (p : file)
| EWrite (p : file) (content : string)
| ERename (src dst : file)
| EPrint (line : string)
| EInput (prompt : string)
| EStdinRead
| ESpawn (cmd : list string)
| EPost (url : string) (payload : json).

(** What a run is given and cannot change. *)
Record Env : Type := {
  argv : list string;              (* [sys.argv], program name included *)
  home : string;                   (* [Path.home()] *)
  isatty : bool;                   (* [sys.stdin.isatty()] *)
  editor_var : option string;      (* [os.getenv('EDITOR')] *)
  http : string -> json -> post_result;
  spawn : list string -> FS -> spawn_result
}.

(** What a run reads and changes. *)
Record World : Type := {
  fs : FS;
  stdin : string;                  (* what is left to read on stdin *)
  trace : list event
}.

(** ** The monad of the script

    A computation runs in a world and ends in one of three ways: it
    returns, it calls [sys.exit] (a [SystemExit], which [except Exception]
    lets through), or it raises an exception. *)
Inductive result (A : Type) : Type :=
| Ret (a : A)
| Exit (code : Z)
| Raise (e : exn).
Arguments Ret {A} a.
Arguments Exit {A} code.
Arguments Raise {A} e.

Definition M (A : Type) : Type := World -> result A * World.

Definition ret {A} (a : A) : M A := fun w => (Ret a, w).

Definition bind {A B} (m : M A) (k : A -> M B) : M B :=
  fun w =>
    match m w with
    | (Ret a, w') => k a w'
    | (Exit c, w') => (Exit c, w')
    | (Raise e, w') => (Raise e, w')
    end.

Declare Scope py_scope.
Delimit Scope py_scope with py.
Notation "x <- m ;; k" := (bind m (fun x => k))
  (at level 100, m at next level, right associativity) : py_scope.
Notation "m ;; k" := (bind m (fun _ => k))
  (at level 100, right associativity) : py_scope.
Local Open Scope py_scope.

(** [sys.exit(code)] *)
Definition sys_exit {A} (code : Z) : M A := fun w => (Exit code, w).

(** [raise e] *)
Definition raise {A} (e : exn) : M A := fun w => (Raise e, w).

(** Evaluation of an expression that may raise. *)
Definition lift {A} (x : attempt A) : M A :=
  match x with
  | Ok a => ret a
  | Err e => raise e
  end.

(** [try: body / except <classes>: handler], the handler being given the
    exception.  [catches] selects the classes named by the clause. *)
Definition try_except {A} (catches : exn -> bool) (body : M A)
    (handler : exn -> M A) : M A :=
  fun w =>
    match body w with
    | (Raise e, w') => if catches e then handler e w' else (Raise e, w')
    | r => r
    end.

(** [if c: m] without an [else]. *)
Definition when (c : bool) (m : M unit) : M unit :=
  if c then m else ret tt.

(** The exit status the shell sees: 0 when the script runs off its end,
    the code given to [sys.exit], 1 for an exception nobody caught.  A
    run that is interrupted from outside, or whose output cannot be
    flushed when the interpreter shuts down, is none of the three and is
    not modelled. *)
Definition exit_status {A} (r : result A) : Z :=
  match r with
  | Ret _ => 0
  | Exit c => c
  | Raise _ => 1
  end.

(** *** Primitive effects *)

(** The world after the effects [t] have been observed. *)
Definition log (w : World) (t : list event) : World :=
  {| fs := fs w; stdin := stdin w; trace := trace w ++ t |}.

Definition emit (e : event) : M unit := fun w => (Ret tt, log w [e]).

Definition set_fs (f : FS) : M unit :=
  fun w => (Ret tt, {| fs := f; stdin := stdin w; trace := trace w |}).

Definition get_fs : M FS := fun w => (Ret (fs w), w).

(** [print(line)] *)
Definition print (line : string) : M unit := emit (EPrint line).

(** [DATA_DIR.exists()] *)
Definition dir_exists : M bool :=
  f <- get_fs ;; ret (match f with Some _ => true | None => false end).

(** [DATA_DIR.mkdir(parents=True, exist_ok=True)] *)
Definition mkdir : M unit :=
  f <- get_fs ;;
  emit EMkdir ;;
  match f with
  | Some _ => ret tt
  | None => set_fs (Some empty_dir)
  end.

(** [p.exists()] for one of the three files. *)
Definition file_exists (p : file) : M bool :=
  f <- get_fs ;;
  ret (match f with
       | Some d => match get_file p d with Some _ => true | None => false end
       | None => false
       end).

(** [open(p, "r")] followed by reading the whole file. *)
Definition read_file (p : file) : M string :=
  f <- get_fs ;;
  match f with
  | Some d =>
      match get_file p d with
      | Some c => emit (ERead p) ;; ret c
      | None => raise OSError
      end
  | None => raise OSError
  end.

(** [open(p, "w")] followed by writing [content]. *)
Definition write_file (p : file) (content : string) : M unit :=
  f <- get_fs ;;
  match f with
  | Some d => emit (EWrite p content) ;; set_fs (Some (set_file p (Some content) d))
  | None => raise OSError
  end.

(** [src.rename(dst)]: the target is replaced when it exists. *)
Definition rename (src dst : file) : M unit :=
  f <- get_fs ;;
  match f with
  | Some d =>
      match get_file src d with
      | Some c =>
          emit (ERename src dst) ;;
          set_fs (Some (set_file dst (Some c) (set_file src None d)))
      | None => raise OSError
      end
  | None => raise OSError
  end.

(** The first line of a text, without its newline, and what follows it. *)
Fixpoint split_line (s : string) : string * string :=
  match s with
  | EmptyString => (EmptyString, EmptyString)
  | String c s' =>
      if Ascii.eqb c (ascii_of_nat 10) then (EmptyString, s')
      else let (l, r) := split_line s' in (String c l, r)
  end.

(** [input(prompt)]: one line of stdin; [EOFError] at the end of input. *)
Definition input (prompt : string) : M string :=
  fun w =>
    let w' := log w [EInput prompt] in
    if PyStr.is_empty (stdin w) then (Raise EOFError, w')
    else
      (Ret (fst (split_line (stdin w))),
       {| fs := fs w'; stdin := snd (split_line (stdin w)); trace := trace w' |}).

(** [sys.stdin.read()]: everything that is left. *)
Definition stdin_read : M string :=
  fun w =>
    (Ret (stdin w),
     {| fs := fs w; stdin := EmptyString; trace := trace w ++ [EStdinRead] |}).

(** ** The script *)

Section Termai.

Variable lib : PyLib.
Variable env : Env.

(** [str(v)], as an f-string replacement field formats a value. *)
Definition py_str (v : json) : string :=
  match v with
  | JStr s => s
  | JNull => "None"
  | JBool true => "True"
  | JBool false => "False"
  | JInt z => PyStr.of_Z z
  | _ => repr_compound lib v
  end.

(** *** Configuration paths, colours and default settings *)

Definition APP_NAME : string := "termai".
Definition DATA_DIR : string := home env ++ "/.local/share/" ++ APP_NAME.
Definition CONFIG_FILE : string := DATA_DIR ++ "/config.json".

Definition GREEN : string := PyStr.esc ++ "[92m".
Definition CYAN : string := PyStr.esc ++ "[96m".
Definition YELLOW : string := PyStr.esc ++ "[93m".
Definition RESET : string := PyStr.esc ++ "[0m".

Definition DEFAULT_CONFIG : list (string * json) :=
  [ ("api_key", JStr "");
    ("model_name", JStr "gemini-2.5-flash");
    ("system_instruction",
      JStr ("You are a CLI assistant specific to Termux. "
            ++ "Do NOT use Markdown. Do NOT use backticks. "
            ++ "Do NOT use bolding. Just write plain text. "
            ++ "Keep answers concise."));
    ("generation_config",
      JObj [ ("temperature", JFloat 0.7%float);
             ("top_p", JFloat 0.9%float);
             ("top_k", JInt 40);
             ("maxOutputTokens", JInt 1024) ]) ].

(** *** Library calls *)

(** [json.load(f)] on the text of the file, and [response.json()] on
    the text of the response. *)
Definition json_load (text : string) : M json :=
  match json_loads lib text with
  | Some v => ret v
  | None => raise (json_error lib text)
  end.

(** [requests.post(url, json=payload)]: one event for the call; [http]
    gives the outcome of the call, whatever [requests] did on the wire to
    get it. *)
Definition post (url : string) (payload : json) : M (Z * string) :=
  emit (EPost url payload) ;;
  match http env url payload with
  | PostRaises e => raise e
  | PostResponse status_code text => ret (status_code, text)
  end.

(** [subprocess.call(cmd)] *)
Definition subprocess_call (cmd : list string) : M unit :=
  f <- get_fs ;;
  emit (ESpawn cmd) ;;
  match spawn env cmd f with
  | SpawnRaises e => raise e
  | SpawnDone after => set_fs after
  end.

(** *** [load_config] *)

Definition is_json_decode_error (e : exn) : bool :=
  match e with JSONDecodeError => true | _ => false end.

Definition new_config (api_key : string) : json :=
  JObj (Py.update "api_key" (JStr api_key) DEFAULT_CONFIG).

Definition load_config : M json :=
  (* Ensure directory exists *)
  there <- dir_exists ;;
  when (negb there) mkdir ;;
  (* 1. Check for Config File *)
  has_config <- file_exists ConfigFile ;;
  if has_config then
    try_except is_json_decode_error
      (text <- read_file ConfigFile ;; json_load text)
      (fun _ =>
         print ("[Error] Your config file (" ++ CONFIG_FILE ++ ") is invalid JSON.") ;;
         print "Please fix it or delete it to reset defaults." ;;
         sys_exit 1)
  else
    (* 2. Migration: If no config, check for old key file *)
    has_old <- file_exists OldKeyFile ;;
    api_key <-
      (if has_old then
         print ("[" ++ APP_NAME ++ "] Migrating legacy key file to new config format...") ;;
         text <- read_file OldKeyFile ;;
         rename OldKeyFile KeyBak ;;
         ret (PyStr.strip text)
       else ret "") ;;
    (* 3. First Run Setup *)
    api_key <-
      (if PyStr.is_empty api_key then
         print ("[" ++ APP_NAME ++ "] First run! Enter your Gemini API Key. "
                ++ "Get the API key from aistudio.google.com") ;;
         line <- input "API Key: " ;;
         let api_key := PyStr.strip line in
         if PyStr.is_empty api_key then
           print "Error: Key cannot be empty." ;;
           sys_exit 1
         else ret api_key
       else ret api_key) ;;
    (* 4. Create new Config Dictionary *)
    let cfg := new_config api_key in
    (* Save it *)
    write_file ConfigFile (json_dumps lib cfg) ;;
    print ("Configuration saved to " ++ CONFIG_FILE ++ PyStr.nl) ;;
    ret cfg.

(** *** [open_editor] *)

Definition open_editor : M unit :=
  let editor := match editor_var env with Some e => e | None => "nano" end in
  print ("Opening config in " ++ editor ++ "...") ;;
  subprocess_call [editor; CONFIG_FILE] ;;
  sys_exit 0.

(** *** [print_help] *)

Definition help_text : list string :=
  [ PyStr.nl ++ GREEN ++ "Termai - Termux AI Assistant" ++ RESET;
    "A lightweight CLI tool for Gemini AI integration in Termux." ++ PyStr.nl;
    YELLOW ++ "Usage:" ++ RESET;
    "  ai [OPTIONS] " ++ PyStr.dq ++ "YOUR QUERY" ++ PyStr.dq;
    "  cat file.txt | ai [OPTIONS] " ++ PyStr.dq ++ "OPTIONAL PROMPT" ++ PyStr.dq;
    PyStr.nl ++ YELLOW ++ "Options:" ++ RESET;
    "  " ++ CYAN ++ "--config" ++ RESET
      ++ "      Open configuration file (Edit API key, Model, Prompts)";
    "  " ++ CYAN ++ "--debug" ++ RESET
      ++ "       Enable debug mode (Show raw status codes and errors)";
    "  " ++ CYAN ++ "--help, -h" ++ RESET ++ "    Show this help message";
    PyStr.nl ++ YELLOW ++ "Examples:" ++ RESET;
    "  ai " ++ PyStr.dq ++ "How do I unzip a tar file?" ++ PyStr.dq;
    "  ai --config";
    "  cat error.log | ai " ++ PyStr.dq ++ "Explain this error briefly" ++ PyStr.dq ].

Fixpoint print_all (lines : list string) : M unit :=
  match lines with
  | [] => ret tt
  | l :: rest => print l ;; print_all rest
  end.

Definition print_help {A} : M A :=
  print_all help_text ;;
  sys_exit 0.

(** *** [main] *)

Definition FLAGS : list string := ["--debug"; "--config"; "--help"; "-h"].

(** Filter flags out of arguments so they don't get sent to the AI. *)
Definition non_flag_args (argv : list string) : list string :=
  filter (fun arg => negb (PyStr.mem arg FLAGS)) (tl argv).

(** 2. Input Handling *)
Definition input_handling (args : list string) : M string :=
  if negb (isatty env) then
    (* Handle Piped Input (e.g., cat file | ai) *)
    text <- stdin_read ;;
    let user_input := PyStr.strip text in
    ret (match args with
         | [] => user_input
         | _ => user_input ++ PyStr.nl ++ PyStr.join " " args
         end)
  else
    match args with
    | _ :: _ =>
        (* Handle Standard Arguments (e.g., ai "query") *)
        ret (PyStr.join " " args)
    | [] =>
        (* No input provided, show help *)
        print_help
    end.

(** 4. Payload Construction *)
Definition build_payload (user_input : string) (system_instr gen_config : json)
  : json :=
  JObj [ ("contents", JArr [JObj [("parts", JArr [JObj [("text", JStr user_input)]])]]);
         ("systemInstruction", JObj [("parts", JArr [JObj [("text", system_instr)]])]);
         ("generationConfig", gen_config) ].

(** Construct URL dynamically *)
Definition build_url (model_name api_key : json) : string :=
  "https://generativelanguage.googleapis.com/v1beta/models/"
  ++ py_str model_name ++ ":generateContent?key=" ++ py_str api_key.

(** 3. and 4.: the variables read from the config, the URL, the payload
    and the debug line printed before the request. *)
Definition prepare_request (config : json) (user_input : string)
    (debug_mode : bool) : M (string * json) :=
  api_key <- lift (Py.get config "api_key" JNull) ;;
  model_name <- lift (Py.get config "model_name" (JStr "gemini-2.5-flash")) ;;
  system_instr <- lift (Py.get config "system_instruction" (JStr "")) ;;
  gen_config <- lift (Py.get config "generation_config" (JObj [])) ;;
  let api_url := build_url model_name api_key in
  let payload := build_payload user_input system_instr gen_config in
  when debug_mode
    (temp <- lift (Py.get gen_config "temperature" JNull) ;;
     print ("[Debug] Model: " ++ py_str model_name ++ " | Temp: " ++ py_str temp)) ;;
  ret (api_url, payload).

(** Safety Check *)
Definition safety_check (data : json) : M unit :=
  has_feedback <- lift (Py.contains "promptFeedback" data) ;;
  blocked <-
    (if has_feedback then
       feedback <- lift (Py.getitem data "promptFeedback") ;;
       lift (Py.contains "blockReason" feedback)
     else ret false) ;;
  when blocked
    (feedback <- lift (Py.getitem data "promptFeedback") ;;
     reason <- lift (Py.getitem feedback "blockReason") ;;
     print ("[Blocked] Reason: " ++ py_str reason) ;;
     sys_exit 0).

(** Output *)
Definition output (debug_mode : bool) (data : json) : M unit :=
  has_candidates <- lift (Py.contains "candidates" data) ;;
  if has_candidates then
    (* Check for content existence *)
    candidates <- lift (Py.getitem data "candidates") ;;
    cand <- lift (Py.getitem0 candidates) ;;
    has_content <- lift (Py.contains "content" cand) ;;
    if has_content then
      content <- lift (Py.getitem cand "content") ;;
      parts <- lift (Py.getitem content "parts") ;;
      part <- lift (Py.getitem0 parts) ;;
      text <- lift (Py.getitem part "text") ;;
      stripped <- lift (Py.strip text) ;;
      print (GREEN ++ stripped ++ RESET)
    else
      print "[No content returned]" ;;
      when debug_mode (print (py_str data))
  else
    print "[Error] Invalid response format" ;;
    when debug_mode (print (py_str data)).

(** The response renderer: what the [try] block does with [data]. *)
Definition render (debug_mode : bool) (data : json) : M unit :=
  safety_check data ;;
  output debug_mode data.

(** What the [try] block does with the response. *)
Definition handle_response (debug_mode : bool) (status_code : Z) (text : string)
  : M unit :=
  when debug_mode (print ("[Debug] Status: " ++ PyStr.of_Z status_code)) ;;
  when (negb (status_code =? 200))
    (print (PyStr.nl ++ "[Error " ++ PyStr.of_Z status_code ++ "]") ;;
     print text ;;
     sys_exit 1) ;;
  data <- json_load text ;;
  render debug_mode data.

(** The body of the [try] block. *)
Definition exchange (debug_mode : bool) (api_url : string) (payload : json)
  : M unit :=
  response <- post api_url payload ;;
  handle_response debug_mode (fst response) (snd response).

(** 5. Send Request: the [try] block and its [except Exception]. *)
Definition send_request (debug_mode : bool) (api_url : string) (payload : json)
  : M unit :=
  try_except (fun _ => true)
    (exchange debug_mode api_url payload)
    (fun e => print (PyStr.nl ++ "[Connection Error] " ++ exc_str lib e)).

Definition main : M unit :=
  (* 0. Load Configuration (Variables System) *)
  config <- load_config ;;
  (* 1. Handle Flags *)
  when (PyStr.mem "--help" (argv env) || PyStr.mem "-h" (argv env)) print_help ;;
  when (PyStr.mem "--config" (argv env)) open_editor ;;
  let debug_mode := PyStr.mem "--debug" (argv env) in
  let args := non_flag_args (argv env) in
  (* 2. Input Handling *)
  user_input <- input_handling args ;;
  (* 3. Prepare Variables from Config, 4. Payload Construction *)
  request <- prepare_request config user_input debug_mode ;;
  (* 5. Send Request *)
  send_request debug_mode (fst request) (snd request).

End Termai.

(** ** A runtime for the examples

    A decoder that knows the documents of a small table, and stand-ins
    for the encoder and the two printers.  Only the closed examples use
    it; every theorem holds for every runtime. *)
Module Sample.

Definition q (s : string) : string := PyStr.dq ++ s ++ PyStr.dq.

(** [{"api_key": ""}] *)
Definition empty_key_text : string :=
  "{" ++ q "api_key" ++ ": " ++ q "" ++ "}".
Definition empty_key_config : json := JObj [("api_key", JStr "")].

(** [{"api_key": "k3y"}] *)
Definition key_text : string :=
  "{" ++ q "api_key" ++ ": " ++ q "k3y" ++ "}".
Definition key_config : json := JObj [("api_key", JStr "k3y")].

(** [{"promptFeedback": {"blockReason": "SAFETY"}}] *)
Definition blocked_text : string :=
  "{" ++ q "promptFeedback" ++ ": {" ++ q "blockReason" ++ ": " ++ q "SAFETY" ++ "}}".
Definition blocked_data : json :=
  JObj [("promptFeedback", JObj [("blockReason", JStr "SAFETY")])].

(** [{"candidates": []}] *)
Definition no_candidate_text : string := "{" ++ q "candidates" ++ ": []}".
Definition no_candidate_data : json := JObj [("candidates", JArr [])].

Definition documents : list (string * json) :=
  [ (empty_key_text, empty_key_config);
    (key_text, key_config);
    (blocked_text, blocked_data);
    (no_candidate_text, no_candidate_data) ].

Definition lib : PyLib :=
  {| json_loads := fun text => Py.lookup text documents;
     json_error := fun _ => JSONDecodeError;
     json_dumps := fun _ => "<json>";
     repr_compound := fun _ => "<repr>";
     exc_str := fun _ => "<exception>" |}.

(** A terminal session of user [u] with the given command line, no
    network and no editor. *)
Definition terminal (args : list string) : Env :=
  {| argv := "ai" :: args;
     home := "/home/u";
     isatty := true;
     editor_var := None;
     http := fun _ _ => PostRaises (RequestException "unreachable");
     spawn := fun _ _ => SpawnRaises OSError |}.

(** The same with standard input coming from a pipe. *)
Definition piped (args : list string) : Env :=
  {| argv := "ai" :: args;
     home := "/home/u";
     isatty := false;
     editor_var := None;
     http := fun _ _ => PostRaises (RequestException "unreachable");
     spawn := fun _ _ => SpawnRaises OSError |}.

(** A terminal session whose every request is answered by [answer]. *)
Definition online (args : list string) (answer : post_result) : Env :=
  {| argv := "ai" :: args;
     home := "/home/u";
     isatty := true;
     editor_var := None;
     http := fun _ _ => answer;
     spawn := fun _ _ => SpawnRaises OSError |}.

(** A world at the start of a run. *)
Definition start (f : FS) (typed : string) : World :=
  {| fs := f; stdin := typed; trace := [] |}.

Definition with_config (text : string) : FS :=
  Some {| config_file := Some text; old_key_file := None; key_bak := None |}.

Definition with_legacy (key : string) : FS :=
  Some {| config_file := None; old_key_file := Some key; key_bak := None |}.

End Sample.

(** ** The vocabulary of the statements *)

(** Everything the computation adds to the log satisfies [P]. *)
Definition emits {A} (P : event -> bool) (m : M A) : Prop :=
  forall w, exists t, trace (snd (m w)) = (trace w ++ t)%list /\ forallb P t = true.

(** The computation leaves the file system as it found it. *)
Definition keeps_fs {A} (m : M A) : Prop :=
  forall w, fs (snd (m w)) = fs w.

(** Events that involve neither the network, nor the editor, nor the
    text on standard input that makes the query. *)
Definition offline (e : event) : bool :=
  match e with
  | EPost _ _ | ESpawn _ | EStdinRead => false
  | _ => true
  end.

(** Events that leave the three files alone. *)
Definition off_disk (e : event) : bool :=
  match e with
  | EMkdir | ERead _ | EWrite _ _ | ERename _ _ => false
  | _ => true
  end.

(** What [main] does once [load_config] has returned. *)
Definition after_load (lib : PyLib) (env : Env) (config : json) : M unit :=
  when (PyStr.mem "--help" (argv env) || PyStr.mem "-h" (argv env)) print_help ;;
  when (PyStr.mem "--config" (argv env)) (open_editor env) ;;
  user_input <- input_handling env (non_flag_args (argv env)) ;;
  request <- prepare_request lib config user_input (PyStr.mem "--debug" (argv env)) ;;
  send_request lib env (PyStr.mem "--debug" (argv env)) (fst request) (snd request).

(** What must not come before the help text if the help flag pre-empts
    all other processing: a load of the config file, the prompt for the
    key, a write of the config file, a network call. *)
Definition allowed_before_help (e : event) : bool :=
  match e with
  | ERead ConfigFile | EInput _ | EWrite ConfigFile _ | EPost _ _ => false
  | _ => true
  end.

(** The help flag pre-empting all other processing: the run prints the
    help text and exits with code 0, and nothing ruled out above comes
    first. *)
Definition help_preempts (lib : PyLib) (env : Env) (w : World) : Prop :=
  PyStr.mem "--help" (argv env) || PyStr.mem "-h" (argv env) = true ->
  exists pre w',
    main lib env w = (Exit 0, w')
    /\ trace w' = (trace w ++ pre ++ map EPrint help_text)%list
    /\ forallb allowed_before_help pre = true.

(** The migration as C5 states it: whatever the legacy key file holds,
    after the run the config file holds the trimmed key, the legacy file
    is gone from its path and the backup holds it. *)
Definition migrates_any_legacy_file (lib : PyLib) (env : Env) (w : World) : Prop :=
  forall d key,
    fs w = Some d -> config_file d = None -> old_key_file d = Some key ->
    fs (snd (main lib env w))
    = Some {| config_file := Some (json_dumps lib (new_config (PyStr.strip key)));
              old_key_file := None;
              key_bak := Some key |}.

(** Events that leave the legacy key file alone. *)
Definition spares_legacy_file (e : event) : bool :=
  match e with
  | ERead OldKeyFile | ERename OldKeyFile _ => false
  | _ => true
  end.

(** The query as C3 states it: piped text with its trailing whitespace
    trimmed, then a newline and the arguments joined by single spaces
    when there are arguments; on a terminal, the arguments joined by
    single spaces. *)
Definition assembles_with_trailing_trim (env : Env) (w : World) : Prop :=
  let args := non_flag_args (argv env) in
  (isatty env = false ->
   fst (input_handling env args w)
   = Ret (PyStr.rstrip (stdin w)
          ++ match args with
             | [] => ""
             | _ => PyStr.nl ++ PyStr.join " " args
             end))
  /\ (isatty env = true -> args <> [] ->
      fst (input_handling env args w) = Ret (PyStr.join " " args)).

(** [payload["contents"][0]["parts"][0]["text"]] *)
Definition content_text (payload : json) : attempt json :=
  match Py.getitem payload "contents" with
  | Err e => Err e
  | Ok contents =>
      match Py.getitem0 contents with
      | Err e => Err e
      | Ok entry =>
          match Py.getitem entry "parts" with
          | Err e => Err e
          | Ok parts =>
              match Py.getitem0 parts with
              | Err e => Err e
              | Ok part => Py.getitem part "text"
              end
          end
      end
  end.

(** A valid configuration with a key in it: a dict whose [api_key] is a
    non-empty string and whose [generation_config], when present, is a
    dict. *)
Definition valid_config (config : json) : bool :=
  match config with
  | JObj fields =>
      match Py.lookup "api_key" fields with
      | Some (JStr key) => negb (PyStr.is_empty key)
      | _ => false
      end
      && match Py.lookup "generation_config" fields with
         | Some (JObj _) | None => true
         | Some _ => false
         end
  | _ => false
  end.

(** What debug mode prints once the response is there. *)
Definition debug_status_line (debug_mode : bool) (status_code : Z) : list event :=
  if debug_mode then [EPrint ("[Debug] Status: " ++ PyStr.of_Z status_code)] else [].

(** The [except Exception] clause of [main]. *)
Definition connection_error (lib : PyLib) (e : exn) : event :=
  EPrint (PyStr.nl ++ "[Connection Error] " ++ exc_str lib e).

(** A run that gets as far as the request: no help and no config flag,
    a configuration, a query, and a request built from them. *)
Definition reaches_request (lib : PyLib) (env : Env) (w : World)
    (api_url : string) (payload : json) (w3 : World) : Prop :=
  PyStr.mem "--help" (argv env) || PyStr.mem "-h" (argv env) = false
  /\ PyStr.mem "--config" (argv env) = false
  /\ exists config w1 user_input w2,
      load_config lib env w = (Ret config, w1)
      /\ input_handling env (non_flag_args (argv env)) w1 = (Ret user_input, w2)
      /\ prepare_request lib config user_input (PyStr.mem "--debug" (argv env)) w2
         = (Ret (api_url, payload), w3).

(** The block reason of a response that carries a prompt-feedback object
    containing one. *)
Definition block_reason (data : json) : option json :=
  match data with
  | JObj fields =>
      match Py.lookup "promptFeedback" fields with
      | Some (JObj feedback) => Py.lookup "blockReason" feedback
      | _ => None
      end
  | _ => None
  end.

(** *** The shapes of a response

    The documented shapes are: blocked (a prompt-feedback object that
    contains a block reason); success (a candidates list whose first
    element contains a content object with the text of a first part);
    empty success (a candidates list whose first element lacks a content
    object); malformed (no candidates list at all). *)
Inductive shape : Type :=
| Blocked
| Success
| EmptySuccess
| Malformed
| Undocumented.

(** The candidates list of a response, when it has one. *)
Definition candidates_list (data : json) : option (list json) :=
  match data with
  | JObj fields =>
      match Py.lookup "candidates" fields with
      | Some (JArr candidates) => Some candidates
      | _ => None
      end
  | _ => None
  end.

(** What a candidate holds under [content], when it holds anything. *)
Definition content_of (cand : json) : option json :=
  match cand with
  | JObj fields => Py.lookup "content" fields
  | _ => None
  end.

(** The text of the first part of a content object. *)
Definition first_part_text (content : json) : option string :=
  match content with
  | JObj fields =>
      match Py.lookup "parts" fields with
      | Some (JArr (JObj part :: _)) =>
          match Py.lookup "text" part with
          | Some (JStr text) => Some text
          | _ => None
          end
      | _ => None
      end
  | _ => None
  end.

Definition shape_of (data : json) : shape :=
  match block_reason data with
  | Some _ => Blocked
  | None =>
      match candidates_list data with
      | None => Malformed
      | Some [] => Undocumented
      | Some (cand :: _) =>
          match content_of cand with
          | None => EmptySuccess
          | Some content =>
              match first_part_text content with
              | Some _ => Success
              | None => Undocumented
              end
          end
      end
  end.


(** *** Further vocabulary *)

(** The file at [p], when the data directory and the file exist. *)
Definition file_of (p : file) (f : FS) : option string :=
  match f with
  | Some d => get_file p d
  | None => None
  end.

(** The data directory as a run finds it, empty when it is missing. *)
Definition dir_of (f : FS) : Dir :=
  match f with
  | Some d => d
  | None => empty_dir
  end.

(** What [load_config] logs for the data directory. *)
Definition mkdir_if_missing (f : FS) : list event :=
  match f with
  | Some _ => []
  | None => [EMkdir]
  end.

Definition is_post (e : event) : bool :=
  match e with
  | EPost _ _ => true
  | _ => false
  end.

Definition no_post (e : event) : bool := negb (is_post e).

(** The number of calls of [requests.post] in a log. *)
Definition posts (t : list event) : nat := List.length (filter is_post t).

(** The computation adds at most [n] calls of [requests.post] to the
    log. *)
Definition posts_at_most {A} (n : nat) (m : M A) : Prop :=
  forall w, exists t, trace (snd (m w)) = (trace w ++ t)%list /\ (posts t <= n)%nat.

(** When the computation calls [sys.exit], the code is 0 or 1. *)
Definition exits_0_or_1 {A} (m : M A) : Prop :=
  forall w c, fst (m w) = Exit c -> c = 0 \/ c = 1.

(** The prompt feedback of a response is absent, or is an object without
    a block reason. *)
Definition feedback_clear (data : json) : bool :=
  match data with
  | JObj fields =>
      match Py.lookup "promptFeedback" fields with
      | None => true
      | Some (JObj feedback) =>
          match Py.lookup "blockReason" feedback with
          | None => true
          | Some _ => false
          end
      | Some _ => false
      end
  | _ => false
  end.

(** [isinstance(v, dict)] *)
Definition is_dict (v : json) : bool :=
  match v with
  | JObj _ => true
  | _ => false
  end.

(** What debug mode prints after a notice: the response itself. *)
Definition debug_dump (lib : PyLib) (debug_mode : bool) (data : json) : list event :=
  if debug_mode then [EPrint (py_str lib data)] else [].

(** The editor that [--config] starts. *)
Definition editor_of (env : Env) : string :=
  match editor_var env with
  | Some e => e
  | None => "nano"
  end.

(** Further scenarios for the examples: a runtime whose decoder reads
    back what its encoder writes, and a session with an editor. *)
Module Scenario.

(** The encoder writes a fixed text; the decoder reads it back as [cfg]
    and knows the documents of [Sample] besides. *)
Definition saving_lib (cfg : json) : PyLib :=
  {| json_loads := fun text =>
       if String.eqb text "<saved>" then Some cfg
       else Py.lookup text Sample.documents;
     json_error := fun _ => JSONDecodeError;
     json_dumps := fun _ => "<saved>";
     repr_compound := fun _ => "<repr>";
     exc_str := fun _ => "<exception>" |}.

(** [ai --config] on a terminal; the editor runs and leaves a config
    file with an empty key. *)
Definition editing (editor : option string) : Env :=
  {| argv := ["ai"; "--config"];
     home := "/home/u";
     isatty := true;
     editor_var := editor;
     http := fun _ _ => PostRaises (RequestException "unreachable");
     spawn := fun _ _ => SpawnDone (Sample.with_config Sample.empty_key_text) |}.

(** A session with the given command line and standard input on a
    terminal or not, in which every request is answered by [answer]. *)
Definition session (args : list string) (tty : bool) (answer : post_result) : Env :=
  {| argv := "ai" :: args;
     home := "/home/u";
     isatty := tty;
     editor_var := None;
     http := fun _ _ => answer;
     spawn := fun _ _ => SpawnRaises OSError |}.

(** Two thousand opening brackets: JSON nested more deeply than the
    decoder can follow. *)
Definition deep_text : string := String.concat "" (repeat "[" 2000).

(** The runtime of [Sample], with a decoder that gives up on [deep_text]
    with a [RecursionError]. *)
Definition deep_lib : PyLib :=
  {| json_loads := fun text => Py.lookup text Sample.documents;
     json_error := fun text =>
       if String.eqb text deep_text then RecursionError else JSONDecodeError;
     json_dumps := fun _ => "<json>";
     repr_compound := fun _ => "<repr>";
     exc_str := fun _ => "<exception>" |}.

End Scenario.

(** * Properties *)

(** ** Evaluation on small inputs *)

Example strip_both_sides :
  PyStr.strip ("  hello " ++ PyStr.nl) = "hello".
Proof. reflexivity. Qed.

Example of_Z_500 : PyStr.of_Z 500 = "500".
Proof. reflexivity. Qed.

Example piped_hello_world :
  fst (input_handling (Sample.piped ["world"]) ["world"]
         (Sample.start None ("hello" ++ PyStr.nl)))
  = Ret ("hello" ++ PyStr.nl ++ "world").
Proof. reflexivity. Qed.

Example interactive_explain_recursion :
  fst (input_handling (Sample.terminal ["explain"; "recursion"])
         (non_flag_args ["ai"; "explain"; "recursion"]) (Sample.start None ""))
  = Ret "explain recursion".
Proof. reflexivity. Qed.

(** The text [42] of a first candidate is printed in green, trimmed. *)
Example answer_is_printed_in_green :
  render Sample.lib false
    (JObj [("candidates",
            JArr [JObj [("content",
                         JObj [("parts", JArr [JObj [("text", JStr " 42 ")]])])]])])
    (Sample.start None "")
  = (Ret tt, log (Sample.start None "") [EPrint (GREEN ++ "42" ++ RESET)]).
Proof. reflexivity. Qed.

(** A [candidates] value that is a string is no candidates list; the
    renderer takes its first character for the first candidate. *)
Example candidates_string :
  shape_of (JObj [("candidates", JStr "abc")]) = Malformed
  /\ render Sample.lib false (JObj [("candidates", JStr "abc")]) (Sample.start None "")
     = (Ret tt, log (Sample.start None "") [EPrint "[No content returned]"]).
Proof. split; reflexivity. Qed.

(** A response without candidates. *)
Example no_candidates_key :
  render Sample.lib true (JObj []) (Sample.start None "")
  = (Ret tt,
     log (Sample.start None "")
       [EPrint "[Error] Invalid response format"; EPrint "<repr>"]).
Proof. reflexivity. Qed.

(** ** Laws of the monad and of the log *)

Lemma log_nil (w : World) : log w [] = w.
Proof. destruct w; unfold log; simpl; now rewrite app_nil_r. Qed.

Lemma log_log (w : World) (a b : list event) : log (log w a) b = log w (a ++ b).
Proof. unfold log; simpl; now rewrite app_assoc. Qed.

Lemma bind_ret {A B} (a : A) (k : A -> M B) (w : World) :
  bind (ret a) k w = k a w.
Proof. reflexivity. Qed.

Lemma bind_assoc {A B C} (m : M A) (k : A -> M B) (h : B -> M C) (w : World) :
  bind (bind m k) h w = bind m (fun a => bind (k a) h) w.
Proof. unfold bind; destruct (m w) as [[a | c | e] w']; reflexivity. Qed.

(** When the first computation returns, the second one takes over. *)
Lemma bind_returns {A B} (m : M A) (k : A -> M B) (w w' : World) (a : A) :
  m w = (Ret a, w') -> bind m k w = k a w'.
Proof. unfold bind; now intros ->. Qed.

(** An exit goes through every later statement. *)
Lemma bind_exits {A B} (m : M A) (k : A -> M B) (w w' : World) (c : Z) :
  m w = (Exit c, w') -> bind m k w = (Exit c, w').
Proof. unfold bind; now intros ->. Qed.

Lemma bind_raises {A B} (m : M A) (k : A -> M B) (w w' : World) (e : exn) :
  m w = (Raise e, w') -> bind m k w = (Raise e, w').
Proof. unfold bind; now intros ->. Qed.

(** [except Exception] does not stop a [SystemExit]. *)
Lemma try_except_exits {A} (catches : exn -> bool) (body : M A)
    (handler : exn -> M A) (w w' : World) (c : Z) :
  body w = (Exit c, w') -> try_except catches body handler w = (Exit c, w').
Proof. unfold try_except; now intros ->. Qed.

Lemma try_except_returns {A} (catches : exn -> bool) (body : M A)
    (handler : exn -> M A) (w w' : World) (a : A) :
  body w = (Ret a, w') -> try_except catches body handler w = (Ret a, w').
Proof. unfold try_except; now intros ->. Qed.

Lemma try_except_catches {A} (catches : exn -> bool) (body : M A)
    (handler : exn -> M A) (w w' : World) (e : exn) :
  body w = (Raise e, w') -> catches e = true ->
  try_except catches body handler w = handler e w'.
Proof. unfold try_except; now intros -> ->. Qed.

(** Unfolds the monad down to the world it acts on. *)
Ltac step :=
  unfold bind, ret, when, lift, raise, sys_exit, print, emit, get_fs, set_fs,
    dir_exists, file_exists, read_file, write_file, rename, mkdir, try_except;
  simpl.

(** Closes a goal that only differs in how the log is bracketed. *)
Ltac settle := unfold log; simpl; rewrite <- ?app_assoc; reflexivity.

(** Replaces a world and a directory by their fields, so that the
    hypotheses on them become equations between variables. *)
Ltac open_world w d :=
  destruct w as [?f ?s ?t]; destruct d as [?c ?o ?b]; simpl in *; subst.

(** ** The configuration store *)

Section ConfigStore.

Variable lib : PyLib.
Variable env : Env.

(** An existing config file that parses is returned as it is: the file
    system is left alone and the config file is the only thing read. *)
Lemma load_config_existing (w : World) (d : Dir) (text : string) (v : json) :
  fs w = Some d -> config_file d = Some text ->
  json_loads lib text = Some v ->
  load_config lib env w = (Ret v, log w [ERead ConfigFile]).
Proof.
  intros Hfs Hcfg Hv. open_world w d.
  unfold load_config, json_load. step. rewrite Hv. reflexivity.
Qed.

(** An existing config file that is not JSON stops the run. *)
Lemma load_config_invalid (w : World) (d : Dir) (text : string) :
  fs w = Some d -> config_file d = Some text ->
  json_loads lib text = None ->
  json_error lib text = JSONDecodeError ->
  load_config lib env w
  = (Exit 1,
     log w [ ERead ConfigFile;
             EPrint ("[Error] Your config file (" ++ CONFIG_FILE env
                     ++ ") is invalid JSON.");
             EPrint "Please fix it or delete it to reset defaults." ]).
Proof.
  intros Hfs Hcfg Hv He. open_world w d.
  unfold load_config, json_load. step. rewrite Hv. simpl. rewrite He. simpl. settle.
Qed.

(** Any other exception of the decoder goes through [load_config]: the
    [except] clause names [JSONDecodeError] only. *)
Lemma load_config_undecodable (w : World) (d : Dir) (text : string) :
  fs w = Some d -> config_file d = Some text ->
  json_loads lib text = None ->
  is_json_decode_error (json_error lib text) = false ->
  load_config lib env w = (Raise (json_error lib text), log w [ERead ConfigFile]).
Proof.
  intros Hfs Hcfg Hv He. open_world w d.
  unfold load_config, json_load. step. rewrite Hv. simpl. rewrite He. reflexivity.
Qed.

(** A legacy key file with a key in it is migrated without a prompt. *)
Lemma load_config_migrates (w : World) (d : Dir) (key : string) :
  fs w = Some d -> config_file d = None -> old_key_file d = Some key ->
  PyStr.is_empty (PyStr.strip key) = false ->
  let cfg := new_config (PyStr.strip key) in
  load_config lib env w
  = (Ret cfg,
     {| fs := Some {| config_file := Some (json_dumps lib cfg);
                      old_key_file := None;
                      key_bak := Some key |};
        stdin := stdin w;
        trace := trace w ++
          [ EPrint ("[" ++ APP_NAME ++ "] Migrating legacy key file to new config format...");
            ERead OldKeyFile;
            ERename OldKeyFile KeyBak;
            EWrite ConfigFile (json_dumps lib cfg);
            EPrint ("Configuration saved to " ++ CONFIG_FILE env ++ PyStr.nl) ] |}).
Proof.
  intros Hfs Hcfg Hold Hkey cfg. subst cfg. open_world w d.
  unfold load_config. step. rewrite Hkey. simpl. settle.
Qed.

(** A blank legacy key file is renamed all the same; the prompt follows,
    and an empty entry stops the run before any config file is written. *)
Lemma load_config_blank_legacy (w : World) (d : Dir) (key : string) :
  fs w = Some d -> config_file d = None -> old_key_file d = Some key ->
  PyStr.strip key = "" ->
  PyStr.is_empty (stdin w) = false ->
  PyStr.strip (fst (split_line (stdin w))) = "" ->
  load_config lib env w
  = (Exit 1,
     {| fs := Some {| config_file := None; old_key_file := None; key_bak := Some key |};
        stdin := snd (split_line (stdin w));
        trace := trace w ++
          [ EPrint ("[" ++ APP_NAME ++ "] Migrating legacy key file to new config format...");
            ERead OldKeyFile;
            ERename OldKeyFile KeyBak;
            EPrint ("[" ++ APP_NAME ++ "] First run! Enter your Gemini API Key. "
                    ++ "Get the API key from aistudio.google.com");
            EInput "API Key: ";
            EPrint "Error: Key cannot be empty." ] |}).
Proof.
  intros Hfs Hcfg Hold Hkey Hin Hline. open_world w d.
  unfold load_config. step. rewrite Hkey. simpl.
  unfold input. simpl. rewrite Hin, Hline. simpl. settle.
Qed.

(** Whatever stops [load_config] stops [main]. *)
Lemma main_stops_with_load_config (w w' : World) (c : Z) :
  load_config lib env w = (Exit c, w') -> main lib env w = (Exit c, w').
Proof. intros H. unfold main. now rewrite (bind_exits _ _ _ _ _ H). Qed.

End ConfigStore.

(** ** Which effects a computation can have *)

Section Effects.

Variable P : event -> bool.

Lemma emits_silent {A} (m : M A) :
  (forall w, trace (snd (m w)) = trace w) -> emits P m.
Proof. intros H w. exists []. now rewrite H, app_nil_r. Qed.

Lemma emits_ret {A} (a : A) : emits P (ret a).
Proof. now apply emits_silent. Qed.

Lemma emits_raise {A} (e : exn) : emits P (@raise A e).
Proof. now apply emits_silent. Qed.

Lemma emits_sys_exit {A} (c : Z) : emits P (@sys_exit A c).
Proof. now apply emits_silent. Qed.

Lemma emits_lift {A} (x : attempt A) : emits P (lift x).
Proof. destruct x; [apply emits_ret | apply emits_raise]. Qed.

Lemma emits_get_fs : emits P get_fs.
Proof. now apply emits_silent. Qed.

Lemma emits_set_fs (f : FS) : emits P (set_fs f).
Proof. now apply emits_silent. Qed.

Lemma emits_emit (e : event) : P e = true -> emits P (emit e).
Proof. intros H w. exists [e]. simpl. now rewrite H. Qed.

Lemma emits_input (prompt : string) :
  P (EInput prompt) = true -> emits P (input prompt).
Proof.
  intros H w. exists [EInput prompt]. unfold input.
  destruct (PyStr.is_empty (stdin w)); simpl; now rewrite H.
Qed.

Lemma emits_stdin_read : P EStdinRead = true -> emits P stdin_read.
Proof. intros H w. exists [EStdinRead]. simpl. now rewrite H. Qed.

Lemma emits_bind {A B} (m : M A) (k : A -> M B) :
  emits P m -> (forall a, emits P (k a)) -> emits P (bind m k).
Proof.
  intros Hm Hk w. unfold bind.
  destruct (Hm w) as (t & Ht & HP).
  destruct (m w) as [[a | c | e] w']; simpl in Ht; try (exists t; now split).
  destruct (Hk a w') as (t' & Ht' & HP').
  exists (t ++ t')%list. rewrite Ht', Ht, app_assoc, forallb_app, HP, HP'. now split.
Qed.

Lemma emits_when (c : bool) (m : M unit) : emits P m -> emits P (when c m).
Proof. destruct c; [trivial | intros _; apply emits_ret]. Qed.

Lemma emits_try {A} (catches : exn -> bool) (body : M A) (handler : exn -> M A) :
  emits P body -> (forall e, emits P (handler e)) ->
  emits P (try_except catches body handler).
Proof.
  intros Hb Hh w. unfold try_except.
  destruct (Hb w) as (t & Ht & HP).
  destruct (body w) as [[a | c | e] w']; simpl in Ht; try (exists t; now split).
  destruct (catches e); [| exists t; now split].
  destruct (Hh e w') as (t' & Ht' & HP').
  exists (t ++ t')%list. rewrite Ht', Ht, app_assoc, forallb_app, HP, HP'. now split.
Qed.

End Effects.

(** A weaker condition on the events. *)
Lemma emits_weaken {A} (P Q : event -> bool) (m : M A) :
  (forall e, P e = true -> Q e = true) -> emits P m -> emits Q m.
Proof.
  intros HPQ Hm w. destruct (Hm w) as (t & Ht & HP). exists t. split; [trivial |].
  rewrite forallb_forall in *. auto.
Qed.

Lemma keeps_fs_bind {A B} (m : M A) (k : A -> M B) :
  keeps_fs m -> (forall a, keeps_fs (k a)) -> keeps_fs (bind m k).
Proof.
  intros Hm Hk w. unfold bind. specialize (Hm w).
  destruct (m w) as [[a | c | e] w']; simpl in Hm; trivial.
  now rewrite Hk.
Qed.

Lemma keeps_fs_try {A} (catches : exn -> bool) (body : M A) (handler : exn -> M A) :
  keeps_fs body -> (forall e, keeps_fs (handler e)) ->
  keeps_fs (try_except catches body handler).
Proof.
  intros Hb Hh w. unfold try_except. specialize (Hb w).
  destruct (body w) as [[a | c | e] w']; simpl in Hb; trivial.
  destruct (catches e); trivial. now rewrite Hh.
Qed.

Lemma keeps_fs_lift {A} (x : attempt A) : keeps_fs (lift x).
Proof. now destruct x. Qed.

Lemma keeps_fs_when (c : bool) (m : M unit) : keeps_fs m -> keeps_fs (when c m).
Proof. now destruct c. Qed.

(** Breaks a computation into its statements and settles each primitive;
    a side condition [P e = true] is decided by evaluation. *)
Ltac effects :=
  repeat first
    [ apply emits_bind; [| intros ?]
    | apply emits_try; [| intros ?]
    | apply emits_when
    | apply emits_ret | apply emits_raise | apply emits_sys_exit
    | apply emits_lift | apply emits_get_fs | apply emits_set_fs
    | apply emits_emit; reflexivity
    | apply emits_input; reflexivity
    | apply emits_stdin_read; reflexivity
    | match goal with
      | |- emits _ (if ?b then _ else _) => destruct b
      | |- emits _ (match ?x with _ => _ end) => destruct x
      | |- emits _ (let (_, _) := ?x in _) => destruct x
      end ].

Ltac fs_kept :=
  repeat first
    [ apply keeps_fs_bind; [| intros ?]
    | apply keeps_fs_try; [| intros ?]
    | apply keeps_fs_when
    | apply keeps_fs_lift
    | match goal with
      | |- keeps_fs (if ?b then _ else _) => destruct b
      | |- keeps_fs (match ?x with _ => _ end) => destruct x
      | |- keeps_fs (let (_, _) := ?x in _) => destruct x
      end
    | intros ?; reflexivity ].

Section Discipline.

Variable lib : PyLib.
Variable env : Env.

(** [load_config] stays offline. *)
Lemma load_config_offline : emits offline (load_config lib env).
Proof.
  unfold load_config, json_load, dir_exists, file_exists, mkdir, read_file,
    write_file, rename, print.
  effects.
Qed.

Lemma main_after_load (w : World) :
  main lib env w = bind (load_config lib env) (after_load lib env) w.
Proof. reflexivity. Qed.

Lemma print_all_log (lines : list string) (w : World) :
  print_all lines w = (Ret tt, log w (map EPrint lines)).
Proof.
  revert w. induction lines as [| l rest IH]; intros w; simpl.
  - now rewrite log_nil.
  - unfold bind, print, emit. now rewrite IH, log_log.
Qed.

(** [print_help] prints the help text and exits with code 0. *)
Lemma print_help_run {A} (w : World) :
  @print_help A w = (Exit 0, log w (map EPrint help_text)).
Proof.
  unfold print_help. now rewrite (bind_returns _ _ _ _ _ (print_all_log _ w)).
Qed.

Lemma forallb_map_print (P : event -> bool) (lines : list string) :
  (forall l, P (EPrint l) = true) -> forallb P (map EPrint lines) = true.
Proof.
  intros H. induction lines as [| l rest IH]; simpl; [trivial |].
  now rewrite H, IH.
Qed.

Lemma print_help_emits {A} (P : event -> bool) :
  (forall l, P (EPrint l) = true) -> emits P (@print_help A).
Proof.
  intros H w. exists (map EPrint help_text). rewrite print_help_run.
  split; [reflexivity | now apply forallb_map_print].
Qed.

Lemma print_help_keeps_fs {A} : keeps_fs (@print_help A).
Proof. intros w. now rewrite print_help_run. Qed.

(** After [load_config], [main] itself touches none of the files. *)
Lemma after_load_off_disk (config : json) : emits off_disk (after_load lib env config).
Proof.
  unfold after_load, open_editor, subprocess_call, input_handling,
    prepare_request, send_request, exchange, handle_response, render,
    safety_check, output, post, json_load, print.
  effects; apply print_help_emits; reflexivity.
Qed.

(** Without [--config], the file system stays as [load_config] left it. *)
Lemma after_load_keeps_fs (config : json) :
  PyStr.mem "--config" (argv env) = false -> keeps_fs (after_load lib env config).
Proof.
  intros H. unfold after_load. rewrite H.
  change (when false (open_editor env)) with (ret tt).
  unfold input_handling, prepare_request, send_request, exchange,
    handle_response, render, safety_check, output, post, json_load, print.
  fs_kept; apply print_help_keeps_fs.
Qed.

Lemma main_keeps_fs_after_load (w : World) :
  PyStr.mem "--config" (argv env) = false ->
  fs (snd (main lib env w)) = fs (snd (load_config lib env w)).
Proof.
  intros H. rewrite main_after_load. unfold bind.
  destruct (load_config lib env w) as [[cfg | c | e] w1]; trivial.
  now apply after_load_keeps_fs.
Qed.

(** With a help flag, nothing of [main] runs after the help text. *)
Lemma after_load_help (config : json) (w : World) :
  PyStr.mem "--help" (argv env) || PyStr.mem "-h" (argv env) = true ->
  after_load lib env config w = (Exit 0, log w (map EPrint help_text)).
Proof.
  intros H. unfold after_load. rewrite H.
  apply bind_exits. apply print_help_run.
Qed.

(** Without a help or config flag and with a query at hand, [main] ends
    as its request does. *)
Lemma main_reaches_request (w w1 w2 w3 : World) (config : json)
    (user_input api_url : string) (payload : json) :
  load_config lib env w = (Ret config, w1) ->
  PyStr.mem "--help" (argv env) || PyStr.mem "-h" (argv env) = false ->
  PyStr.mem "--config" (argv env) = false ->
  input_handling env (non_flag_args (argv env)) w1 = (Ret user_input, w2) ->
  prepare_request lib config user_input (PyStr.mem "--debug" (argv env)) w2
    = (Ret (api_url, payload), w3) ->
  main lib env w
  = send_request lib env (PyStr.mem "--debug" (argv env)) api_url payload w3.
Proof.
  intros Hload Hhelp Hcfg Hin Hreq.
  rewrite main_after_load, (bind_returns _ _ _ _ _ Hload).
  unfold after_load. rewrite Hhelp, Hcfg. simpl when.
  rewrite !bind_ret, (bind_returns _ _ _ _ _ Hin), (bind_returns _ _ _ _ _ Hreq).
  reflexivity.
Qed.

End Discipline.

(** ** The help flag *)

(** On a fresh installation, [ai --help] asks for the API key first; with
    an empty answer the run ends with code 1 and the help text is never
    shown. *)
Example help_on_first_run :
  main Sample.lib (Sample.terminal ["--help"]) (Sample.start None PyStr.nl)
  = (Exit 1,
     {| fs := Some empty_dir;
        stdin := "";
        trace :=
          [ EMkdir;
            EPrint ("[termai] First run! Enter your Gemini API Key. "
                    ++ "Get the API key from aistudio.google.com");
            EInput "API Key: ";
            EPrint "Error: Key cannot be empty." ] |}).
Proof. reflexivity. Qed.

(** C1, as stated, fails: on a fresh installation with an empty answer to
    the prompt, [ai --help] does not exit with code 0. *)
Lemma help_does_not_preempt_load_config :
  ~ help_preempts Sample.lib (Sample.terminal ["--help"])
      (Sample.start None PyStr.nl).
Proof.
  intros H. destruct (H eq_refl) as (pre & w' & Hmain & _).
  vm_compute in Hmain. discriminate Hmain.
Qed.

(** C1, amended: with [--help] or [-h] among the arguments, [main] first
    runs [load_config]; when that returns, the help text is printed and
    the run exits with code 0 before any editor, query or network step;
    when it exits or raises, so does the run.  With a config file that
    parses, reading it is all that precedes the help text.  On every
    path the run stays offline. *)
Theorem help_follows_load_config (lib : PyLib) (env : Env) (w : World) :
  PyStr.mem "--help" (argv env) || PyStr.mem "-h" (argv env) = true ->
  (forall config w1,
      load_config lib env w = (Ret config, w1) ->
      main lib env w = (Exit 0, log w1 (map EPrint help_text)))
  /\ (forall c w1,
      load_config lib env w = (Exit c, w1) -> main lib env w = (Exit c, w1))
  /\ (forall e w1,
      load_config lib env w = (Raise e, w1) -> main lib env w = (Raise e, w1))
  /\ (forall d text config,
      fs w = Some d -> config_file d = Some text ->
      json_loads lib text = Some config ->
      main lib env w = (Exit 0, log w (ERead ConfigFile :: map EPrint help_text)))
  /\ exists t,
      trace (snd (main lib env w)) = (trace w ++ t)%list
      /\ forallb offline t = true.
Proof.
  intros Hhelp.
  assert (Hret : forall config w1,
             load_config lib env w = (Ret config, w1) ->
             main lib env w = (Exit 0, log w1 (map EPrint help_text))).
  { intros config w1 Hload.
    rewrite main_after_load, (bind_returns _ _ _ _ _ Hload).
    now apply after_load_help. }
  split; [exact Hret |].
  split; [intros c w1 Hload; now apply main_stops_with_load_config |].
  split.
  { intros e w1 Hload. rewrite main_after_load. now apply bind_raises. }
  split.
  { intros d text config Hfs Hcfg Hv.
    rewrite (Hret _ _ (load_config_existing lib env w d text config Hfs Hcfg Hv)).
    now rewrite log_log. }
  destruct (load_config_offline lib env w) as (t & Ht & Hoff).
  rewrite main_after_load. unfold bind.
  destruct (load_config lib env w) as [[config | c | e] w1]; simpl in Ht;
    try (exists t; now split).
  rewrite after_load_help by exact Hhelp.
  exists (t ++ map EPrint help_text)%list. unfold log. cbn [snd trace].
  rewrite Ht, app_assoc, forallb_app, Hoff. split; [reflexivity |].
  now apply forallb_map_print.
Qed.

Lemma help_follows_load_config_witness :
  PyStr.mem "--help" (argv (Sample.terminal ["--help"]))
  || PyStr.mem "-h" (argv (Sample.terminal ["--help"])) = true
  /\ main Sample.lib (Sample.terminal ["--help"])
       (Sample.start (Sample.with_config Sample.key_text) "")
     = (Exit 0,
        log (Sample.start (Sample.with_config Sample.key_text) "")
          (ERead ConfigFile :: map EPrint help_text)).
Proof.
  split; [reflexivity |].
  refine (proj1 (proj2 (proj2 (proj2
    (help_follows_load_config Sample.lib (Sample.terminal ["--help"])
       (Sample.start (Sample.with_config Sample.key_text) "") eq_refl))))
    _ Sample.key_text Sample.key_config eq_refl eq_refl eq_refl).
Defined.

(** ** Loading, migrating and creating the configuration *)

(** A config file nested too deeply for the decoder: the
    [RecursionError] is not what the [except] clause names, so it ends
    the run right after the file has been read, without a message. *)
Example deep_config_raises :
  main Scenario.deep_lib (Sample.terminal ["hi"])
    (Sample.start (Sample.with_config Scenario.deep_text) "")
  = (Raise RecursionError,
     log (Sample.start (Sample.with_config Scenario.deep_text) "") [ERead ConfigFile]).
Proof. vm_compute. reflexivity. Qed.




(** C10: a legacy key file is renamed to the backup before its key is
    looked at.  When the key trims to the empty string, the rename has
    happened, the prompt runs, and an empty entry ends the run with
    code 1: the legacy file is gone from its path, the backup holds it,
    and no config file has been written. *)
Theorem blank_legacy_key_is_renamed_before_failure (lib : PyLib) (env : Env)
    (w : World) (d : Dir) (key : string) :
  fs w = Some d -> config_file d = None -> old_key_file d = Some key ->
  PyStr.strip key = "" ->
  PyStr.is_empty (stdin w) = false ->
  PyStr.strip (fst (split_line (stdin w))) = "" ->
  let w' :=
    {| fs := Some {| config_file := None; old_key_file := None; key_bak := Some key |};
       stdin := snd (split_line (stdin w));
       trace := trace w ++
         [ EPrint ("[" ++ APP_NAME ++ "] Migrating legacy key file to new config format...");
           ERead OldKeyFile;
           ERename OldKeyFile KeyBak;
           EPrint ("[" ++ APP_NAME ++ "] First run! Enter your Gemini API Key. "
                   ++ "Get the API key from aistudio.google.com");
           EInput "API Key: ";
           EPrint "Error: Key cannot be empty." ] |} in
  load_config lib env w = (Exit 1, w') /\ main lib env w = (Exit 1, w').
Proof.
  intros Hfs Hcfg Hold Hkey Hin Hline w'.
  pose proof (load_config_blank_legacy lib env w d key Hfs Hcfg Hold Hkey Hin Hline)
    as Hload.
  split; [exact Hload | now apply main_stops_with_load_config].
Qed.

Lemma blank_legacy_key_is_renamed_before_failure_witness :
  PyStr.strip (" " ++ PyStr.nl) = ""
  /\ PyStr.is_empty PyStr.nl = false
  /\ PyStr.strip (fst (split_line PyStr.nl)) = ""
  /\ fs (snd (main Sample.lib (Sample.terminal ["hi"])
                (Sample.start (Sample.with_legacy (" " ++ PyStr.nl)) PyStr.nl)))
     = Some {| config_file := None; old_key_file := None;
               key_bak := Some (" " ++ PyStr.nl) |}.
Proof.
  split; [reflexivity |]. split; [reflexivity |]. split; [reflexivity |].
  rewrite (proj2
    (blank_legacy_key_is_renamed_before_failure Sample.lib (Sample.terminal ["hi"])
       (Sample.start (Sample.with_legacy (" " ++ PyStr.nl)) PyStr.nl) _ (" " ++ PyStr.nl)
       eq_refl eq_refl eq_refl eq_refl eq_refl eq_refl)).
  reflexivity.
Defined.

(** C5, as stated, fails: a legacy key file that holds only blanks is
    renamed, the prompt runs, and with an empty answer the run ends
    without a config file. *)
Lemma blank_legacy_file_is_not_migrated :
  ~ migrates_any_legacy_file Sample.lib (Sample.terminal ["hi"])
      (Sample.start (Sample.with_legacy (" " ++ PyStr.nl)) PyStr.nl).
Proof.
  intros H. specialize (H _ _ eq_refl eq_refl eq_refl).
  vm_compute in H. discriminate H.
Qed.

(** C5, amended: when there is no config file and the legacy key file
    holds a key (its text does not trim to the empty string),
    [load_config] writes the config file with the trimmed key and renames
    the legacy file to the backup, without a prompt; unless [--config]
    hands the file to an editor, that is the file system the run leaves.
    And whenever a config file exists -- whatever else lies next to it --
    a run neither reads nor renames the legacy file, leaves the file
    system alone unless [--config] is given, and [load_config] returns
    what the config file parses to. *)
Theorem legacy_key_is_migrated_once (lib : PyLib) (env : Env) (w : World)
    (d : Dir) (key : string) :
  fs w = Some d -> config_file d = None -> old_key_file d = Some key ->
  PyStr.is_empty (PyStr.strip key) = false ->
  let cfg := new_config (PyStr.strip key) in
  let d1 := {| config_file := Some (json_dumps lib cfg);
               old_key_file := None;
               key_bak := Some key |} in
  load_config lib env w
  = (Ret cfg,
     {| fs := Some d1;
        stdin := stdin w;
        trace := trace w ++
          [ EPrint ("[" ++ APP_NAME ++ "] Migrating legacy key file to new config format...");
            ERead OldKeyFile;
            ERename OldKeyFile KeyBak;
            EWrite ConfigFile (json_dumps lib cfg);
            EPrint ("Configuration saved to " ++ CONFIG_FILE env ++ PyStr.nl) ] |})
  /\ (PyStr.mem "--config" (argv env) = false ->
      fs (snd (main lib env w)) = Some d1)
  /\ forall (env2 : Env) (w2 : World) (d2 : Dir) (text : string),
      fs w2 = Some d2 -> config_file d2 = Some text ->
      (forall v, json_loads lib text = Some v ->
                 load_config lib env2 w2 = (Ret v, log w2 [ERead ConfigFile]))
      /\ (exists t, trace (snd (main lib env2 w2)) = (trace w2 ++ t)%list
                    /\ forallb spares_legacy_file t = true)
      /\ (PyStr.mem "--config" (argv env2) = false ->
          fs (snd (main lib env2 w2)) = fs w2).
Proof.
  intros Hfs Hcfg Hold Hkey cfg d1.
  pose proof (load_config_migrates lib env w d key Hfs Hcfg Hold Hkey) as Hload.
  cbv zeta in Hload. fold cfg in Hload. fold d1 in Hload.
  split; [exact Hload |].
  split.
  { intros Hflag. rewrite main_keeps_fs_after_load by exact Hflag.
    now rewrite Hload. }
  intros env2 w2 d2 text Hfs2 Hcfg2.
  split; [intros v Hv; now apply (load_config_existing lib env2 w2 d2 text) |].
  assert (Hload2 : exists r t,
             load_config lib env2 w2 = (r, log w2 t)
             /\ forallb spares_legacy_file t = true).
  { destruct (json_loads lib text) as [v |] eqn:Hv.
    - exists (Ret v), [ERead ConfigFile].
      now rewrite (load_config_existing lib env2 w2 d2 text v).
    - destruct (is_json_decode_error (json_error lib text)) eqn:He.
      + eexists (Exit 1), _.
        rewrite (load_config_invalid lib env2 w2 d2 text); trivial.
        * now split.
        * now destruct (json_error lib text).
      + exists (Raise (json_error lib text)), [ERead ConfigFile].
        now rewrite (load_config_undecodable lib env2 w2 d2 text). }
  destruct Hload2 as (r & t & Hr & Ht).
  split.
  - rewrite main_after_load. unfold bind. rewrite Hr.
    destruct r as [v | c | e]; try (exists t; now split).
    destruct (emits_weaken off_disk spares_legacy_file _
                ltac:(intros [] ; simpl; congruence)
                (after_load_off_disk lib env2 v) (log w2 t)) as (t' & Ht' & HP').
    exists (t ++ t')%list. rewrite Ht'. unfold log; simpl.
    now rewrite app_assoc, forallb_app, Ht, HP'.
  - intros Hflag. rewrite main_keeps_fs_after_load by exact Hflag.
    now rewrite Hr.
Qed.

Lemma legacy_key_is_migrated_once_witness :
  PyStr.is_empty (PyStr.strip (" k3y" ++ PyStr.nl)) = false
  /\ fs (snd (main Sample.lib (Sample.terminal ["hi"])
                (Sample.start (Sample.with_legacy (" k3y" ++ PyStr.nl)) "")))
     = Some {| config_file := Some (json_dumps Sample.lib (new_config "k3y"));
               old_key_file := None;
               key_bak := Some (" k3y" ++ PyStr.nl) |}.
Proof.
  split; [reflexivity |].
  exact (proj1 (proj2
    (legacy_key_is_migrated_once Sample.lib (Sample.terminal ["hi"])
       (Sample.start (Sample.with_legacy (" k3y" ++ PyStr.nl)) "") _ (" k3y" ++ PyStr.nl)
       eq_refl eq_refl eq_refl eq_refl)) eq_refl).
Defined.

(** ** Assembling the query *)

(** C3, as stated, fails: whitespace at the start of the piped text is
    trimmed as well. *)
Lemma leading_whitespace_is_trimmed_too :
  ~ assembles_with_trailing_trim (Sample.piped []) (Sample.start None "  hello").
Proof.
  intros [H _]. specialize (H eq_refl). vm_compute in H. discriminate H.
Qed.

Lemma append_empty (s : string) : s ++ "" = s.
Proof. induction s as [| c s IH]; simpl; [reflexivity | now rewrite IH]. Qed.

(** C3, amended: with the flags removed from the arguments, piped input
    is read to its end and trimmed of whitespace at both ends, then a
    newline and the arguments joined by single spaces follow when there
    are arguments; on a terminal with arguments, the query is the
    arguments joined by single spaces and standard input is not read. *)
Theorem query_assembly (env : Env) (w : World) :
  let args := non_flag_args (argv env) in
  (isatty env = false ->
   input_handling env args w
   = (Ret (PyStr.strip (stdin w)
           ++ match args with
              | [] => ""
              | _ => PyStr.nl ++ PyStr.join " " args
              end),
      {| fs := fs w; stdin := ""; trace := trace w ++ [EStdinRead] |}))
  /\ (isatty env = true -> args <> [] ->
      input_handling env args w = (Ret (PyStr.join " " args), w)).
Proof.
  intros args. unfold input_handling. split.
  - intros ->. simpl. unfold bind, stdin_read, ret.
    destruct args; [now rewrite append_empty | reflexivity].
  - intros -> Hargs. simpl. destruct args; [contradiction | reflexivity].
Qed.

Lemma query_assembly_witness :
  isatty (Sample.piped ["--debug"; "world"]) = false
  /\ input_handling (Sample.piped ["--debug"; "world"])
       (non_flag_args (argv (Sample.piped ["--debug"; "world"])))
       (Sample.start None ("hello" ++ PyStr.nl))
     = (Ret ("hello" ++ PyStr.nl ++ "world"),
        {| fs := None; stdin := ""; trace := [EStdinRead] |}).
Proof.
  split; [reflexivity |].
  exact (proj1 (query_assembly (Sample.piped ["--debug"; "world"])
                  (Sample.start None ("hello" ++ PyStr.nl))) eq_refl).
Defined.

(** ** The exchange with the remote API *)

Section Exchange.

Variable lib : PyLib.
Variable env : Env.

(** An exception raised by the POST is caught and reported; the request
    then returns normally. *)
Lemma send_request_network_error (debug_mode : bool) (api_url : string)
    (payload : json) (w : World) (e : exn) :
  http env api_url payload = PostRaises e ->
  send_request lib env debug_mode api_url payload w
  = (Ret tt, log w [EPost api_url payload; connection_error lib e]).
Proof.
  intros H. unfold send_request, exchange, post. step. rewrite H. simpl. settle.
Qed.

(** With a response at hand, the rest of the [try] block runs on it. *)
Lemma send_request_response (debug_mode : bool) (api_url : string)
    (payload : json) (w : World) (status_code : Z) (text : string) :
  http env api_url payload = PostResponse status_code text ->
  send_request lib env debug_mode api_url payload w
  = try_except (fun _ => true)
      (handle_response lib debug_mode status_code text)
      (fun e => emit (connection_error lib e))
      (log w [EPost api_url payload]).
Proof.
  intros H. unfold send_request, exchange, post, try_except, bind, emit, print.
  simpl. rewrite H. reflexivity.
Qed.

(** The POST is the first effect of the request. *)
Lemma send_request_posts_first (debug_mode : bool) (api_url : string)
    (payload : json) (w : World) :
  exists t,
    trace (snd (send_request lib env debug_mode api_url payload w))
    = (trace w ++ EPost api_url payload :: t)%list.
Proof.
  destruct (http env api_url payload) as [e | status_code text] eqn:H.
  - rewrite (send_request_network_error _ _ _ _ _ H). eexists. reflexivity.
  - rewrite (send_request_response _ _ _ _ _ _ H).
    assert (Hany : emits (fun _ => true)
                     (try_except (fun _ => true)
                        (handle_response lib debug_mode status_code text)
                        (fun e => emit (connection_error lib e)))).
    { unfold handle_response, render, safety_check, output, json_load, print.
      effects. }
    destruct (Hany (log w [EPost api_url payload])) as (t & Ht & _).
    exists t. rewrite Ht. unfold log; simpl. now rewrite <- app_assoc.
Qed.

(** A response with a status other than 200 ends the run with code 1
    after the status and the raw body have been printed. *)
Lemma handle_response_error_status (debug_mode : bool) (status_code : Z)
    (text : string) (w : World) :
  (status_code =? 200) = false ->
  handle_response lib debug_mode status_code text w
  = (Exit 1,
     log w (debug_status_line debug_mode status_code
            ++ [ EPrint (PyStr.nl ++ "[Error " ++ PyStr.of_Z status_code ++ "]");
                 EPrint text ])).
Proof.
  intros H. unfold handle_response, debug_status_line.
  rewrite H. destruct debug_mode; step; settle.
Qed.

(** A response with status 200 and a body that parses is rendered. *)
Lemma handle_response_ok (debug_mode : bool) (text : string) (data : json)
    (w : World) :
  json_loads lib text = Some data ->
  handle_response lib debug_mode 200 text w
  = render lib debug_mode data (log w (debug_status_line debug_mode 200)).
Proof.
  intros H. unfold handle_response, debug_status_line, json_load.
  destruct debug_mode; step; rewrite H; [reflexivity |].
  now rewrite log_nil.
Qed.

End Exchange.

Lemma main_ends_as_request (lib : PyLib) (env : Env) (w w3 : World)
    (api_url : string) (payload : json) :
  reaches_request lib env w api_url payload w3 ->
  main lib env w
  = send_request lib env (PyStr.mem "--debug" (argv env)) api_url payload w3.
Proof.
  intros (Hhelp & Hcfg & config & w1 & user_input & w2 & Hload & Hin & Hreq).
  now apply (main_reaches_request lib env w w1 w2 w3 config user_input).
Qed.

(** ** The request *)

(** C8: from a valid configuration with a non-empty [api_key] and any
    query, the request is built without an error, nothing but the debug
    line is printed, and the content text of the payload,
    [contents[0].parts[0].text], is the query itself; that payload is
    what the request then posts. *)
Theorem payload_carries_query (lib : PyLib) (config : json) (user_input : string)
    (debug_mode : bool) (w : World) :
  valid_config config = true ->
  exists api_url payload line,
    prepare_request lib config user_input debug_mode w
    = (Ret (api_url, payload), log w (if debug_mode then [EPrint line] else []))
    /\ content_text payload = Ok (JStr user_input)
    /\ forall env w',
        exists t,
          trace (snd (send_request lib env debug_mode api_url payload w'))
          = (trace w' ++ EPost api_url payload :: t)%list.
Proof.
  unfold valid_config. destruct config as [| | | | | | fields]; try discriminate.
  intros H. apply andb_prop in H. destruct H as [_ Hgen].
  unfold prepare_request. step.
  destruct debug_mode; simpl.
  - destruct (Py.lookup "generation_config" fields) as [[| | | | | | g] |];
      try discriminate; simpl; do 3 eexists;
      (split; [reflexivity |]; split; [reflexivity |]);
      intros env w'; apply send_request_posts_first.
  - do 2 eexists. exists "". rewrite log_nil.
    split; [reflexivity |]. split; [reflexivity |].
    intros env w'. apply send_request_posts_first.
Qed.

Lemma payload_carries_query_witness :
  valid_config Sample.key_config = true
  /\ exists api_url payload line,
      prepare_request Sample.lib Sample.key_config "explain recursion" true
        (Sample.start None "")
      = (Ret (api_url, payload), log (Sample.start None "") [EPrint line])
      /\ content_text payload = Ok (JStr "explain recursion").
Proof.
  split; [reflexivity |].
  destruct (payload_carries_query Sample.lib Sample.key_config "explain recursion"
              true (Sample.start None "") eq_refl)
    as (api_url & payload & line & Hrequest & Htext & _).
  exists api_url, payload, line. split; [exact Hrequest | exact Htext].
Defined.

(** C7: in a run that gets as far as the request, an exception raised by
    the POST is caught by the handler of [main]: the connection-error
    line is printed and the run ends with exit status 0; a response with
    a status other than 200 has its status and its raw body printed and
    ends the run with exit status 1. *)
Theorem transport_failures (lib : PyLib) (env : Env) (w w3 : World)
    (api_url : string) (payload : json) :
  reaches_request lib env w api_url payload w3 ->
  (forall e,
      http env api_url payload = PostRaises e ->
      main lib env w
      = (Ret tt, log w3 [EPost api_url payload; connection_error lib e])
      /\ exit_status (fst (main lib env w)) = 0)
  /\ (forall status_code text,
      http env api_url payload = PostResponse status_code text ->
      (status_code =? 200) = false ->
      main lib env w
      = (Exit 1,
         log w3 (EPost api_url payload
                 :: debug_status_line (PyStr.mem "--debug" (argv env)) status_code
                 ++ [ EPrint (PyStr.nl ++ "[Error " ++ PyStr.of_Z status_code ++ "]");
                      EPrint text ]))
      /\ exit_status (fst (main lib env w)) = 1).
Proof.
  intros Hreach. rewrite (main_ends_as_request _ _ _ _ _ _ Hreach). split.
  - intros e H. now rewrite (send_request_network_error lib env _ _ _ _ _ H).
  - intros status_code text H Hcode.
    rewrite (send_request_response lib env _ _ _ _ _ _ H).
    rewrite (try_except_exits _ _ _ _ _ _
               (handle_response_error_status lib _ _ text _ Hcode)).
    now rewrite log_log.
Qed.

(** A terminal session with a config file in place gets as far as the
    request, whatever the network will answer. *)
Lemma sample_reaches_request (answer : post_result) :
  reaches_request Sample.lib (Sample.online ["hi"] answer)
    (Sample.start (Sample.with_config Sample.key_text) "")
    ("https://generativelanguage.googleapis.com/v1beta/models/"
     ++ "gemini-2.5-flash:generateContent?key=k3y")
    (build_payload "hi" (JStr "") (JObj []))
    (log (Sample.start (Sample.with_config Sample.key_text) "") [ERead ConfigFile]).
Proof.
  split; [reflexivity |]. split; [reflexivity |].
  exists Sample.key_config,
    (log (Sample.start (Sample.with_config Sample.key_text) "") [ERead ConfigFile]),
    "hi",
    (log (Sample.start (Sample.with_config Sample.key_text) "") [ERead ConfigFile]).
  split; [reflexivity |]. split; reflexivity.
Qed.

Lemma transport_failures_witness :
  (500 =? 200) = false
  /\ exit_status
       (fst (main Sample.lib
               (Sample.online ["hi"] (PostRaises (RequestException "timed out")))
               (Sample.start (Sample.with_config Sample.key_text) "")))
     = 0
  /\ main Sample.lib (Sample.online ["hi"] (PostResponse 500 "server error"))
       (Sample.start (Sample.with_config Sample.key_text) "")
     = (Exit 1,
        log (Sample.start (Sample.with_config Sample.key_text) "")
          [ ERead ConfigFile;
            EPost ("https://generativelanguage.googleapis.com/v1beta/models/"
                   ++ "gemini-2.5-flash:generateContent?key=k3y")
              (build_payload "hi" (JStr "") (JObj []));
            EPrint (PyStr.nl ++ "[Error 500]");
            EPrint "server error" ]).
Proof.
  split; [reflexivity |]. split.
  - exact (proj2 (proj1
      (transport_failures Sample.lib _ _ _ _ _
         (sample_reaches_request (PostRaises (RequestException "timed out"))))
      (RequestException "timed out") eq_refl)).
  - exact (proj1 (proj2
      (transport_failures Sample.lib _ _ _ _ _
         (sample_reaches_request (PostResponse 500 "server error")))
      500 "server error" eq_refl eq_refl)).
Defined.

(** ** Rendering the response *)

Lemma prefix_refl (s : string) : prefix s s = true.
Proof.
  induction s as [| c s IH]; simpl; [reflexivity |].
  destruct (ascii_dec c c); [exact IH | contradiction].
Qed.

(** A text contains what it ends with. *)
Lemma contains_suffix (p s : string) : PyStr.contains s (p ++ s) = true.
Proof.
  induction p as [| c p IH].
  - change ("" ++ s) with s.
    destruct s; unfold PyStr.contains; fold PyStr.contains; now rewrite prefix_refl.
  - change (String c p ++ s) with (String c (p ++ s)).
    unfold PyStr.contains; fold PyStr.contains. rewrite IH. apply orb_true_r.
Qed.

(** A blocked response is reported and ends the rendering with code 0. *)
Lemma render_blocked (lib : PyLib) (debug_mode : bool) (data reason : json)
    (w : World) :
  block_reason data = Some reason ->
  render lib debug_mode data w
  = (Exit 0, log w [EPrint ("[Blocked] Reason: " ++ py_str lib reason)]).
Proof.
  unfold block_reason. destruct data as [| | | | | | fields]; try discriminate.
  destruct (Py.lookup "promptFeedback" fields) as [[| | | | | | feedback] |] eqn:Hf;
    try discriminate.
  intros Hr. unfold render, safety_check. step.
  rewrite Hf. simpl. rewrite Hr. reflexivity.
Qed.

(** C6: when the parsed body carries a prompt-feedback object that
    contains a block reason, the renderer prints one line, which contains
    the reason, and exits with code 0; in a run that gets as far as the
    request and is answered with status 200 and such a body, that line is
    the last output and the exit status is 0. *)
Theorem blocked_response_is_reported (lib : PyLib) (debug_mode : bool)
    (data reason : json) (w : World) :
  block_reason data = Some reason ->
  let line := "[Blocked] Reason: " ++ py_str lib reason in
  render lib debug_mode data w = (Exit 0, log w [EPrint line])
  /\ PyStr.contains (py_str lib reason) line = true
  /\ forall env w0 api_url payload text,
      reaches_request lib env w0 api_url payload w ->
      http env api_url payload = PostResponse 200 text ->
      json_loads lib text = Some data ->
      main lib env w0
      = (Exit 0,
         log w (EPost api_url payload
                :: debug_status_line (PyStr.mem "--debug" (argv env)) 200
                ++ [EPrint line])).
Proof.
  intros Hr line. split; [now apply render_blocked |].
  split; [apply contains_suffix |].
  intros env w0 api_url payload text Hreach Hpost Hdata.
  rewrite (main_ends_as_request _ _ _ _ _ _ Hreach).
  rewrite (send_request_response lib env _ _ _ _ _ _ Hpost).
  apply try_except_exits.
  rewrite (handle_response_ok lib _ _ _ _ Hdata).
  rewrite (render_blocked lib _ _ _ _ Hr). now rewrite !log_log.
Qed.

Lemma blocked_response_is_reported_witness :
  block_reason Sample.blocked_data = Some (JStr "SAFETY")
  /\ main Sample.lib (Sample.online ["hi"] (PostResponse 200 Sample.blocked_text))
       (Sample.start (Sample.with_config Sample.key_text) "")
     = (Exit 0,
        log (Sample.start (Sample.with_config Sample.key_text) "")
          [ ERead ConfigFile;
            EPost ("https://generativelanguage.googleapis.com/v1beta/models/"
                   ++ "gemini-2.5-flash:generateContent?key=k3y")
              (build_payload "hi" (JStr "") (JObj []));
            EPrint "[Blocked] Reason: SAFETY" ]).
Proof.
  split; [reflexivity |].
  exact (proj2 (proj2
    (blocked_response_is_reported Sample.lib false Sample.blocked_data (JStr "SAFETY")
       _ eq_refl))
    _ _ _ _ _
    (sample_reaches_request (PostResponse 200 Sample.blocked_text)) eq_refl eq_refl).
Defined.

Example empty_candidates_undocumented :
  shape_of (JObj [("candidates", JArr [])]) = Undocumented.
Proof. reflexivity. Qed.

Example content_without_parts_undocumented :
  shape_of (JObj [("candidates", JArr [JObj [("content", JObj [])]])]) = Undocumented.
Proof. reflexivity. Qed.

Example part_without_text_undocumented :
  shape_of (JObj [("candidates",
                   JArr [JObj [("content", JObj [("parts", JArr [JObj []])])]])])
  = Undocumented.
Proof. reflexivity. Qed.

(** On a response without a block reason the safety check lets the
    renderer go on, or raises before anything is printed. *)
Lemma safety_check_not_blocked (lib : PyLib) (data : json) (w : World) :
  block_reason data = None ->
  safety_check lib data w = (Ret tt, w)
  \/ exists e, safety_check lib data w = (Raise e, w).
Proof.
  unfold block_reason, safety_check. intros H.
  destruct data as [| b | z | f | s | items | fields]; step;
    try (right; eexists; reflexivity).
  - destruct (PyStr.contains "promptFeedback" s); simpl;
      [right; eexists; reflexivity | now left].
  - destruct (existsb (Py.str_eq "promptFeedback") items); simpl;
      [right; eexists; reflexivity | now left].
  - destruct (Py.lookup "promptFeedback" fields)
      as [[| b | z | f | s | items | feedback] |]; simpl;
      try (right; eexists; reflexivity); try (now left).
    + destruct (PyStr.contains "blockReason" s); simpl;
        [right; eexists; reflexivity | now left].
    + destruct (existsb (Py.str_eq "blockReason") items); simpl;
        [right; eexists; reflexivity | now left].
    + rewrite H. simpl. now left.
Qed.

(** Reading [content["parts"][0]["text"].strip()] raises unless the
    content object holds the text of a first part. *)
Lemma no_first_part_text (content : json) :
  first_part_text content = None ->
  exists e,
    match Py.getitem content "parts" with
    | Err e' => Err e'
    | Ok parts =>
        match Py.getitem0 parts with
        | Err e' => Err e'
        | Ok part =>
            match Py.getitem part "text" with
            | Err e' => Err e'
            | Ok text => Py.strip text
            end
        end
    end = Err e.
Proof.
  unfold first_part_text. intros H.
  destruct content as [| b | z | f | s | items | fields]; simpl;
    try (eexists; reflexivity).
  destruct (Py.lookup "parts" fields) as [parts |]; simpl;
    [| eexists; reflexivity].
  destruct parts as [| b | z | f | s | items | pfields]; simpl;
    try (eexists; reflexivity).
  - destruct s; simpl; eexists; reflexivity.
  - destruct items as [| part rest]; simpl; [eexists; reflexivity |].
    destruct part as [| b | z | f | s | items | part]; simpl;
      try (eexists; reflexivity).
    destruct (Py.lookup "text" part) as [text |]; simpl;
      [| eexists; reflexivity].
    destruct text; simpl; try (eexists; reflexivity). discriminate H.
Qed.

(** With an empty candidates list, or with a first candidate whose
    content has no text of a first part, the output step raises before
    anything is printed. *)
Lemma output_undocumented (lib : PyLib) (debug_mode : bool) (data : json)
    (candidates : list json) (w : World) :
  candidates_list data = Some candidates ->
  match candidates with
  | [] => True
  | cand :: _ =>
      exists content, content_of cand = Some content
                      /\ first_part_text content = None
  end ->
  exists e, output lib debug_mode data w = (Raise e, w).
Proof.
  unfold candidates_list. intros Hc Hshape.
  destruct data as [| b | z | f | s | items | fields]; try discriminate Hc.
  destruct (Py.lookup "candidates" fields) as [[| b | z | f | s | items | g] |] eqn:Hl;
    try discriminate Hc.
  injection Hc as ->. unfold output. step. rewrite Hl. simpl.
  destruct candidates as [| cand rest]; simpl; [eexists; reflexivity |].
  destruct Hshape as (content & Hcontent & Htext).
  unfold content_of in Hcontent.
  destruct cand as [| b | z | f | s | items | cfields]; try discriminate Hcontent.
  simpl. rewrite Hcontent. simpl.
  destruct (no_first_part_text content Htext) as (e & He).
  exists e.
  destruct (Py.getitem content "parts") as [parts | e1]; simpl;
    [| now injection He as ->].
  destruct (Py.getitem0 parts) as [part | e2]; simpl;
    [| now injection He as ->].
  destruct (Py.getitem part "text") as [text | e3]; simpl;
    [| now injection He as ->].
  rewrite He. reflexivity.
Qed.

(** On a response of no documented shape the renderer raises before it
    prints anything. *)
Lemma render_undocumented (lib : PyLib) (debug_mode : bool) (data : json)
    (w : World) :
  shape_of data = Undocumented ->
  exists e, render lib debug_mode data w = (Raise e, w).
Proof.
  unfold shape_of. intros H.
  destruct (block_reason data) eqn:Hb; [discriminate H |].
  destruct (candidates_list data) as [candidates |] eqn:Hc; [| discriminate H].
  unfold render.
  destruct (safety_check_not_blocked lib data w Hb) as [Hs | (e & Hs)].
  - rewrite (bind_returns _ _ _ _ _ Hs).
    apply (output_undocumented lib debug_mode data candidates w Hc).
    destruct candidates as [| cand rest]; [exact I |].
    destruct (content_of cand) as [content |]; [| discriminate H].
    exists content. split; [reflexivity |].
    destruct (first_part_text content); [discriminate H | reflexivity].
  - exists e. now apply bind_raises.
Qed.

(** C9: on a response with status 200 whose parsed body has none of the
    documented shapes -- an empty candidates list, or a first candidate
    whose content has no parts list or no text field -- the renderer
    raises before it prints anything; in a run that got as far as the
    request, the handler of [main] catches the exception, the
    connection-error line is the only thing printed for the response, and
    the exit status is 0. *)
Theorem undocumented_shape_is_connection_error (lib : PyLib) (debug_mode : bool)
    (data : json) (w : World) :
  shape_of data = Undocumented ->
  (exists e, render lib debug_mode data w = (Raise e, w))
  /\ forall env w0 api_url payload text,
      reaches_request lib env w0 api_url payload w ->
      http env api_url payload = PostResponse 200 text ->
      json_loads lib text = Some data ->
      exists e,
        main lib env w0
        = (Ret tt,
           log w (EPost api_url payload
                  :: debug_status_line (PyStr.mem "--debug" (argv env)) 200
                  ++ [connection_error lib e]))
        /\ exit_status (fst (main lib env w0)) = 0.
Proof.
  intros Hshape. split; [now apply render_undocumented |].
  intros env w0 api_url payload text Hreach Hpost Hdata.
  rewrite (main_ends_as_request _ _ _ _ _ _ Hreach).
  rewrite (send_request_response lib env _ _ _ _ _ _ Hpost).
  set (dbg := PyStr.mem "--debug" (argv env)).
  destruct (render_undocumented lib dbg data
              (log (log w [EPost api_url payload]) (debug_status_line dbg 200))
              Hshape) as (e & He).
  exists e.
  rewrite (try_except_catches _ _ _ _ _ e
             (eq_trans (handle_response_ok lib dbg text data _ Hdata) He) eq_refl).
  unfold emit. rewrite !log_log. split; reflexivity.
Qed.

Lemma undocumented_shape_is_connection_error_witness :
  shape_of Sample.no_candidate_data = Undocumented
  /\ exists e,
      main Sample.lib (Sample.online ["hi"] (PostResponse 200 Sample.no_candidate_text))
        (Sample.start (Sample.with_config Sample.key_text) "")
      = (Ret tt,
         log (Sample.start (Sample.with_config Sample.key_text) "")
           [ ERead ConfigFile;
             EPost ("https://generativelanguage.googleapis.com/v1beta/models/"
                    ++ "gemini-2.5-flash:generateContent?key=k3y")
               (build_payload "hi" (JStr "") (JObj []));
             connection_error Sample.lib e ]).
Proof.
  split; [reflexivity |].
  destruct (proj2
    (undocumented_shape_is_connection_error Sample.lib false
       Sample.no_candidate_data _ eq_refl)
    _ _ _ _ _
    (sample_reaches_request (PostResponse 200 Sample.no_candidate_text))
    eq_refl eq_refl) as (e & He & _).
  exists e. exact He.
Defined.

(** ** The API key of a loaded configuration *)

(** C2 fails on the code: [load_config] hands back an existing config
    file as it is, and [main] posts with whatever [api_key] it holds.
    With a config file that parses to [{"api_key": ""}] and the command
    line [ai hi] on a terminal, the config file is read and the request
    is posted to a URL that ends in [key=], the key being empty. *)
Theorem empty_api_key_is_posted (lib : PyLib) (env : Env) (w : World)
    (d : Dir) (text : string) :
  fs w = Some d -> config_file d = Some text ->
  json_loads lib text = Some (JObj [("api_key", JStr "")]) ->
  argv env = ["ai"; "hi"] -> isatty env = true ->
  exists t,
    trace (snd (main lib env w))
    = (trace w
       ++ ERead ConfigFile
       :: EPost ("https://generativelanguage.googleapis.com/v1beta/models/"
                 ++ "gemini-2.5-flash:generateContent?key=")
            (build_payload "hi" (JStr "") (JObj []))
       :: t)%list.
Proof.
  intros Hfs Hcfg Hv Hargv Htty.
  assert (Hreach : reaches_request lib env w
            ("https://generativelanguage.googleapis.com/v1beta/models/"
             ++ "gemini-2.5-flash:generateContent?key=")
            (build_payload "hi" (JStr "") (JObj []))
            (log w [ERead ConfigFile])).
  { unfold reaches_request. rewrite Hargv.
    split; [reflexivity |]. split; [reflexivity |].
    exists (JObj [("api_key", JStr "")]), (log w [ERead ConfigFile]), "hi",
      (log w [ERead ConfigFile]).
    split; [now apply (load_config_existing lib env w d text) |].
    split; [| reflexivity].
    unfold input_handling. rewrite Htty. reflexivity. }
  rewrite (main_ends_as_request _ _ _ _ _ _ Hreach).
  destruct (send_request_posts_first lib env (PyStr.mem "--debug" (argv env))
              ("https://generativelanguage.googleapis.com/v1beta/models/"
               ++ "gemini-2.5-flash:generateContent?key=")
              (build_payload "hi" (JStr "") (JObj []))
              (log w [ERead ConfigFile])) as (t & Ht).
  exists t. rewrite Ht. unfold log; simpl. now rewrite <- app_assoc.
Qed.

Lemma empty_api_key_is_posted_witness :
  json_loads Sample.lib Sample.empty_key_text = Some (JObj [("api_key", JStr "")])
  /\ exists t,
      trace (snd (main Sample.lib (Sample.terminal ["hi"])
                    (Sample.start (Sample.with_config Sample.empty_key_text) "")))
      = ([] ++ ERead ConfigFile
         :: EPost ("https://generativelanguage.googleapis.com/v1beta/models/"
                   ++ "gemini-2.5-flash:generateContent?key=")
              (build_payload "hi" (JStr "") (JObj []))
         :: t)%list.
Proof.
  split; [reflexivity |].
  exact (empty_api_key_is_posted Sample.lib (Sample.terminal ["hi"])
           (Sample.start (Sample.with_config Sample.empty_key_text) "")
           _ Sample.empty_key_text eq_refl eq_refl eq_refl eq_refl eq_refl).
Defined.

(** * Further properties of the script *)

(** ** The flags *)

(** X1: with [--config] and no help flag, once [load_config] has
    returned, the run announces the editor -- [$EDITOR], or [nano] when
    the variable is unset --, starts it on the config file and, when the
    editor has run, exits with code 0 leaving the files as the editor
    left them; standard input is not read and nothing is posted.  When
    the editor cannot be started, the exception ends the run. *)
Theorem config_flag_opens_editor (lib : PyLib) (env : Env) (w w1 : World)
    (config : json) :
  load_config lib env w = (Ret config, w1) ->
  PyStr.mem "--help" (argv env) || PyStr.mem "-h" (argv env) = false ->
  PyStr.mem "--config" (argv env) = true ->
  let cmd := [editor_of env; CONFIG_FILE env] in
  let w2 := log w1 [EPrint ("Opening config in " ++ editor_of env ++ "..."); ESpawn cmd] in
  match spawn env cmd (fs w1) with
  | SpawnDone after =>
      main lib env w
      = (Exit 0, {| fs := after; stdin := stdin w2; trace := trace w2 |})
  | SpawnRaises e => main lib env w = (Raise e, w2)
  end.
Proof.
  intros Hload Hhelp Hcfg cmd w2.
  rewrite main_after_load, (bind_returns _ _ _ _ _ Hload).
  unfold after_load. rewrite Hhelp, Hcfg.
  unfold open_editor, subprocess_call. fold (editor_of env). fold cmd.
  unfold w2. step.
  destruct (spawn env cmd (fs w1)) as [e | after]; simpl; settle.
Qed.

Lemma config_flag_opens_editor_witness :
  PyStr.mem "--config" (argv (Scenario.editing (Some "vi"))) = true
  /\ main Sample.lib (Scenario.editing (Some "vi"))
       (Sample.start (Sample.with_config Sample.key_text) "")
     = (Exit 0,
        log (Sample.start (Sample.with_config Sample.empty_key_text) "")
          [ ERead ConfigFile;
            EPrint "Opening config in vi...";
            ESpawn ["vi"; "/home/u/.local/share/termai/config.json"] ]).
Proof.
  split; [reflexivity |].
  exact (config_flag_opens_editor Sample.lib (Scenario.editing (Some "vi"))
           (Sample.start (Sample.with_config Sample.key_text) "")
           (log (Sample.start (Sample.with_config Sample.key_text) "") [ERead ConfigFile])
           Sample.key_config eq_refl eq_refl eq_refl).
Defined.

(** X2: on a terminal, a command line without anything but flags gives
    no query: once [load_config] has returned and unless [--config] is
    given, the help text is printed and the run exits with code 0, with
    or without a help flag; nothing is read from standard input and
    nothing is posted. *)
Theorem no_query_shows_help (lib : PyLib) (env : Env) (w w1 : World)
    (config : json) :
  load_config lib env w = (Ret config, w1) ->
  PyStr.mem "--config" (argv env) = false ->
  isatty env = true ->
  non_flag_args (argv env) = [] ->
  main lib env w = (Exit 0, log w1 (map EPrint help_text)).
Proof.
  intros Hload Hcfg Htty Hargs.
  rewrite main_after_load, (bind_returns _ _ _ _ _ Hload).
  destruct (PyStr.mem "--help" (argv env) || PyStr.mem "-h" (argv env)) eqn:Hhelp.
  - now apply after_load_help.
  - unfold after_load. rewrite Hhelp, Hcfg, Hargs.
    change (when false print_help) with (ret tt).
    change (when false (open_editor env)) with (ret tt).
    rewrite !bind_ret. apply bind_exits.
    unfold input_handling. rewrite Htty. apply print_help_run.
Qed.

Lemma no_query_shows_help_witness :
  non_flag_args (argv (Sample.terminal ["--debug"])) = []
  /\ main Sample.lib (Sample.terminal ["--debug"])
       (Sample.start (Sample.with_config Sample.key_text) "")
     = (Exit 0,
        log (Sample.start (Sample.with_config Sample.key_text) "")
          (ERead ConfigFile :: map EPrint help_text)).
Proof.
  split; [reflexivity |].
  exact (no_query_shows_help Sample.lib (Sample.terminal ["--debug"])
           (Sample.start (Sample.with_config Sample.key_text) "")
           (log (Sample.start (Sample.with_config Sample.key_text) "") [ERead ConfigFile])
           Sample.key_config eq_refl eq_refl eq_refl eq_refl).
Defined.

Lemma filter_all {A} (f : A -> bool) (l : list A) :
  forallb f l = true -> filter f l = l.
Proof.
  induction l as [| a l IH]; simpl; [reflexivity |].
  intros H. apply andb_prop in H. destruct H as [Ha Hl].
  now rewrite Ha, IH.
Qed.

Lemma forallb_filter {A} (f : A -> bool) (l : list A) :
  forallb f (filter f l) = true.
Proof.
  induction l as [| a l IH]; simpl; [reflexivity |].
  destruct (f a) eqn:Ha; simpl; [now rewrite Ha |]. exact IH.
Qed.

(** X3: flags are transparent to the query and nothing else is.  A
    command line without flags after the program name keeps its
    arguments as they are, in their order and with their repetitions; a
    flag -- [--debug], [--config], [--help] or [-h] -- can be deleted
    wherever it stands without changing the arguments of the query; and
    the arguments of the query never hold a flag. *)
Theorem flags_never_reach_the_query (prog : string) :
  (forall args,
      forallb (fun a => negb (PyStr.mem a FLAGS)) args = true ->
      non_flag_args (prog :: args) = args)
  /\ (forall before flag after,
      PyStr.mem flag FLAGS = true ->
      non_flag_args (prog :: before ++ flag :: after)
      = non_flag_args (prog :: before ++ after))
  /\ (forall args,
      forallb (fun a => negb (PyStr.mem a FLAGS)) (non_flag_args (prog :: args))
      = true).
Proof.
  unfold non_flag_args. simpl tl. split; [| split].
  - intros args H. now apply filter_all.
  - intros before flag after H. rewrite !filter_app. f_equal.
    cbn [filter]. now rewrite H.
  - intros args. apply forallb_filter.
Qed.

Lemma flags_never_reach_the_query_witness :
  forallb (fun a => negb (PyStr.mem a FLAGS)) ["rm"; "rm"; "-rf"] = true
  /\ PyStr.mem "--debug" FLAGS = true
  /\ non_flag_args ["ai"; "rm"; "rm"; "-rf"] = ["rm"; "rm"; "-rf"]
  /\ non_flag_args ("ai" :: ["rm"] ++ "--debug" :: ["rm"; "-rf"])
     = non_flag_args ("ai" :: ["rm"] ++ ["rm"; "-rf"]).
Proof.
  split; [reflexivity |]. split; [reflexivity |]. split.
  - exact (proj1 (flags_never_reach_the_query "ai") ["rm"; "rm"; "-rf"] eq_refl).
  - exact (proj1 (proj2 (flags_never_reach_the_query "ai"))
             ["rm"] "--debug" ["rm"; "-rf"] eq_refl).
Defined.

(** ** First run *)

Ltac open_fs w :=
  destruct w as [[[?c ?o ?b] |] ?s ?t]; simpl in *; subst.

(** The first run with a key on standard input. *)
Lemma load_config_first_run (lib : PyLib) (env : Env) (w : World) :
  file_of ConfigFile (fs w) = None ->
  file_of OldKeyFile (fs w) = None ->
  PyStr.is_empty (stdin w) = false ->
  PyStr.is_empty (PyStr.strip (fst (split_line (stdin w)))) = false ->
  let cfg := new_config (PyStr.strip (fst (split_line (stdin w)))) in
  load_config lib env w
  = (Ret cfg,
     {| fs := Some (set_file ConfigFile (Some (json_dumps lib cfg)) (dir_of (fs w)));
        stdin := snd (split_line (stdin w));
        trace := trace w ++ mkdir_if_missing (fs w) ++
          [ EPrint ("[" ++ APP_NAME ++ "] First run! Enter your Gemini API Key. "
                    ++ "Get the API key from aistudio.google.com");
            EInput "API Key: ";
            EWrite ConfigFile (json_dumps lib cfg);
            EPrint ("Configuration saved to " ++ CONFIG_FILE env ++ PyStr.nl) ] |}).
Proof.
  intros Hcfg Hold Hin Hkey cfg. subst cfg. open_fs w;
    unfold load_config, input; step; rewrite Hin, Hkey; simpl; settle.
Qed.

(** X4: on a first run -- no config file, no legacy key file -- the data
    directory is created when it is missing, the user is prompted, and a
    line that does not trim to the empty string becomes the key:
    [load_config] writes the config file with the default settings and
    that key, reports where it saved them and returns them. *)
Theorem first_run_creates_config (lib : PyLib) (env : Env) (w : World) :
  file_of ConfigFile (fs w) = None ->
  file_of OldKeyFile (fs w) = None ->
  PyStr.is_empty (stdin w) = false ->
  PyStr.is_empty (PyStr.strip (fst (split_line (stdin w)))) = false ->
  let cfg := new_config (PyStr.strip (fst (split_line (stdin w)))) in
  load_config lib env w
  = (Ret cfg,
     {| fs := Some (set_file ConfigFile (Some (json_dumps lib cfg)) (dir_of (fs w)));
        stdin := snd (split_line (stdin w));
        trace := trace w ++ mkdir_if_missing (fs w) ++
          [ EPrint ("[" ++ APP_NAME ++ "] First run! Enter your Gemini API Key. "
                    ++ "Get the API key from aistudio.google.com");
            EInput "API Key: ";
            EWrite ConfigFile (json_dumps lib cfg);
            EPrint ("Configuration saved to " ++ CONFIG_FILE env ++ PyStr.nl) ] |}).
Proof. apply load_config_first_run. Qed.

Lemma first_run_creates_config_witness :
  PyStr.is_empty (PyStr.strip (fst (split_line (" k3y " ++ PyStr.nl)))) = false
  /\ load_config Sample.lib (Sample.terminal ["hi"]) (Sample.start None (" k3y " ++ PyStr.nl))
     = (Ret (new_config "k3y"),
        {| fs := Some {| config_file := Some (json_dumps Sample.lib (new_config "k3y"));
                         old_key_file := None;
                         key_bak := None |};
           stdin := "";
           trace :=
             [ EMkdir;
               EPrint ("[termai] First run! Enter your Gemini API Key. "
                       ++ "Get the API key from aistudio.google.com");
               EInput "API Key: ";
               EWrite ConfigFile (json_dumps Sample.lib (new_config "k3y"));
               EPrint ("Configuration saved to /home/u/.local/share/termai/config.json"
                       ++ PyStr.nl) ] |}).
Proof.
  split; [reflexivity |].
  exact (first_run_creates_config Sample.lib (Sample.terminal ["hi"])
           (Sample.start None (" k3y " ++ PyStr.nl)) eq_refl eq_refl eq_refl eq_refl).
Defined.

(** X5: on a first run without a key -- standard input is at its end,
    or the line given trims to the empty string -- no config file is
    written and the run fails: with an [EOFError] nobody catches in the
    first case, with the message that the key cannot be empty and exit
    code 1 in the second.  Either way the exit status is 1. *)
Theorem first_run_without_key_fails (lib : PyLib) (env : Env) (w : World) :
  file_of ConfigFile (fs w) = None ->
  file_of OldKeyFile (fs w) = None ->
  let asked :=
    log w (mkdir_if_missing (fs w) ++
           [ EPrint ("[" ++ APP_NAME ++ "] First run! Enter your Gemini API Key. "
                     ++ "Get the API key from aistudio.google.com");
             EInput "API Key: " ]) in
  (PyStr.is_empty (stdin w) = true ->
   main lib env w
   = (Raise EOFError,
      {| fs := Some (dir_of (fs w)); stdin := stdin w; trace := trace asked |}))
  /\ (PyStr.is_empty (stdin w) = false ->
      PyStr.is_empty (PyStr.strip (fst (split_line (stdin w)))) = true ->
      main lib env w
      = (Exit 1,
         {| fs := Some (dir_of (fs w));
            stdin := snd (split_line (stdin w));
            trace := trace asked ++ [EPrint "Error: Key cannot be empty."] |}))
  /\ (PyStr.is_empty (stdin w) = true
      \/ PyStr.is_empty (PyStr.strip (fst (split_line (stdin w)))) = true ->
      exit_status (fst (main lib env w)) = 1
      /\ file_of ConfigFile (fs (snd (main lib env w))) = None).
Proof.
  intros Hcfg Hold asked.
  assert (Heof : PyStr.is_empty (stdin w) = true ->
                 main lib env w
                 = (Raise EOFError,
                    {| fs := Some (dir_of (fs w)); stdin := stdin w;
                       trace := trace asked |})).
  { intros Hin. rewrite main_after_load. apply bind_raises. subst asked.
    open_fs w; unfold load_config, input; step; rewrite Hin; simpl; settle. }
  assert (Hblank : PyStr.is_empty (stdin w) = false ->
                   PyStr.is_empty (PyStr.strip (fst (split_line (stdin w)))) = true ->
                   main lib env w
                   = (Exit 1,
                      {| fs := Some (dir_of (fs w));
                         stdin := snd (split_line (stdin w));
                         trace := trace asked ++ [EPrint "Error: Key cannot be empty."] |})).
  { intros Hin Hkey. apply main_stops_with_load_config. subst asked.
    open_fs w; unfold load_config, input; step; rewrite Hin, Hkey; simpl; settle. }
  split; [exact Heof |]. split; [exact Hblank |].
  intros H. destruct (PyStr.is_empty (stdin w)) eqn:Hin.
  - rewrite (Heof eq_refl). simpl. split; [reflexivity |].
    now destruct (fs w).
  - destruct H as [H | H]; [discriminate H |].
    rewrite (Hblank eq_refl H). simpl. split; [reflexivity |].
    now destruct (fs w).
Qed.

Lemma first_run_without_key_fails_witness :
  PyStr.is_empty (stdin (Sample.start None "")) = true
  /\ main Sample.lib (Sample.terminal ["hi"]) (Sample.start None "")
     = (Raise EOFError,
        {| fs := Some empty_dir;
           stdin := "";
           trace :=
             [ EMkdir;
               EPrint ("[termai] First run! Enter your Gemini API Key. "
                       ++ "Get the API key from aistudio.google.com");
               EInput "API Key: " ] |}).
Proof.
  split; [reflexivity |].
  exact (proj1 (first_run_without_key_fails Sample.lib (Sample.terminal ["hi"])
                  (Sample.start None "") eq_refl eq_refl) eq_refl).
Defined.

(** ** What [load_config] keeps *)

(** A configuration made from a key that is not empty is valid. *)
Lemma new_config_valid (key : string) :
  PyStr.is_empty key = false -> valid_config (new_config key) = true.
Proof. intros H. unfold valid_config, new_config. simpl. now rewrite H. Qed.

(** What [load_config] returns when it had to create the config file. *)
Lemma load_config_created (lib : PyLib) (env : Env) (w w1 : World)
    (cfg : json) :
  file_of ConfigFile (fs w) = None ->
  load_config lib env w = (Ret cfg, w1) ->
  exists key,
    cfg = new_config key
    /\ PyStr.is_empty key = false
    /\ Py.get cfg "api_key" JNull = Ok (JStr key)
    /\ valid_config cfg = true
    /\ file_of ConfigFile (fs w1) = Some (json_dumps lib cfg).
Proof.
  intros Hcfg Hload.
  assert (Hkey : forall key, PyStr.is_empty key = false ->
                 Py.get (new_config key) "api_key" JNull = Ok (JStr key)
                 /\ valid_config (new_config key) = true).
  { intros key H. split; [reflexivity | now apply new_config_valid]. }
  revert Hload. unfold load_config, input.
  destruct w as [[[c o b] |] s t]; simpl in Hcfg; subst; step.
  - destruct o as [legacy |]; simpl.
    + destruct (PyStr.is_empty (PyStr.strip legacy)) eqn:Hl; simpl.
      * destruct (PyStr.is_empty s) eqn:Hs; simpl; [discriminate |].
        destruct (PyStr.is_empty (PyStr.strip (fst (split_line s)))) eqn:Hk; simpl;
          [discriminate |].
        intros H. injection H as <- <-.
        exists (PyStr.strip (fst (split_line s))).
        destruct (Hkey _ Hk). now repeat split.
      * intros H. injection H as <- <-.
        exists (PyStr.strip legacy). destruct (Hkey _ Hl). now repeat split.
    + destruct (PyStr.is_empty s) eqn:Hs; simpl; [discriminate |].
      destruct (PyStr.is_empty (PyStr.strip (fst (split_line s)))) eqn:Hk; simpl;
        [discriminate |].
      intros H. injection H as <- <-.
      exists (PyStr.strip (fst (split_line s))).
      destruct (Hkey _ Hk). now repeat split.
  - destruct (PyStr.is_empty s) eqn:Hs; simpl; [discriminate |].
    destruct (PyStr.is_empty (PyStr.strip (fst (split_line s)))) eqn:Hk; simpl;
      [discriminate |].
    intros H. injection H as <- <-.
    exists (PyStr.strip (fst (split_line s))).
    destruct (Hkey _ Hk). now repeat split.
Qed.

(** X6: a configuration that [load_config] creates always has a key:
    when there is no config file and [load_config] returns, what it
    returns is the default settings with an [api_key] that is not empty
    -- a valid configuration --, and the config file holds its dump. *)
Theorem created_config_has_a_key (lib : PyLib) (env : Env) (w w1 : World)
    (cfg : json) :
  file_of ConfigFile (fs w) = None ->
  load_config lib env w = (Ret cfg, w1) ->
  exists key,
    cfg = new_config key
    /\ PyStr.is_empty key = false
    /\ Py.get cfg "api_key" JNull = Ok (JStr key)
    /\ valid_config cfg = true
    /\ file_of ConfigFile (fs w1) = Some (json_dumps lib cfg).
Proof. apply load_config_created. Qed.

Lemma created_config_has_a_key_witness :
  file_of ConfigFile (fs (Sample.start (Sample.with_legacy (" k3y" ++ PyStr.nl)) "")) = None
  /\ exists key,
      new_config "k3y" = new_config key /\ PyStr.is_empty key = false.
Proof.
  split; [reflexivity |].
  destruct (created_config_has_a_key Sample.lib (Sample.terminal ["hi"])
              (Sample.start (Sample.with_legacy (" k3y" ++ PyStr.nl)) "")
              _ (new_config "k3y") eq_refl eq_refl)
    as (key & Hcfg & Hkey & _).
  exists key. split; [exact Hcfg | exact Hkey].
Defined.

(** X7: [load_config] never removes the data directory and never loses
    the legacy key: on every path the data directory exists afterwards,
    and the text of a legacy key file that was there is still at its
    path or is the content of the backup. *)
Theorem load_config_keeps_the_legacy_key (lib : PyLib) (env : Env) (w : World) :
  fs (snd (load_config lib env w)) <> None
  /\ forall key,
      file_of OldKeyFile (fs w) = Some key ->
      file_of OldKeyFile (fs (snd (load_config lib env w))) = Some key
      \/ file_of KeyBak (fs (snd (load_config lib env w))) = Some key.
Proof.
  unfold load_config, input, json_load.
  destruct w as [[[c o b] |] s t]; step.
  - split.
    + destruct c as [text |]; simpl.
      * destruct (json_loads lib text); simpl; [discriminate |].
        destruct (is_json_decode_error (json_error lib text)); simpl; discriminate.
      * destruct o as [legacy |]; simpl.
        -- destruct (PyStr.is_empty (PyStr.strip legacy)); simpl;
             [| discriminate].
           destruct (PyStr.is_empty s); simpl; [discriminate |].
           destruct (PyStr.is_empty (PyStr.strip (fst (split_line s)))); simpl;
             discriminate.
        -- destruct (PyStr.is_empty s); simpl; [discriminate |].
           destruct (PyStr.is_empty (PyStr.strip (fst (split_line s)))); simpl;
             discriminate.
    + intros key Hkey. subst o.
      destruct c as [text |]; simpl.
      * destruct (json_loads lib text); simpl; [now left |].
        destruct (is_json_decode_error (json_error lib text)); simpl; now left.
      * destruct (PyStr.is_empty (PyStr.strip key)); simpl; [| now right].
        destruct (PyStr.is_empty s); simpl; [now right |].
        destruct (PyStr.is_empty (PyStr.strip (fst (split_line s)))); simpl;
          now right.
  - split; [| discriminate].
    destruct (PyStr.is_empty s); simpl; [discriminate |].
    destruct (PyStr.is_empty (PyStr.strip (fst (split_line s)))); simpl;
      discriminate.
Qed.

Lemma load_config_keeps_the_legacy_key_witness :
  file_of OldKeyFile (fs (Sample.start (Sample.with_legacy " ") "")) = Some " "
  /\ (file_of OldKeyFile
        (fs (snd (load_config Sample.lib (Sample.terminal ["hi"])
                    (Sample.start (Sample.with_legacy " ") "")))) = Some " "
      \/ file_of KeyBak
           (fs (snd (load_config Sample.lib (Sample.terminal ["hi"])
                       (Sample.start (Sample.with_legacy " ") "")))) = Some " ").
Proof.
  split; [reflexivity |].
  exact (proj2 (load_config_keeps_the_legacy_key Sample.lib (Sample.terminal ["hi"])
                  (Sample.start (Sample.with_legacy " ") "")) " " eq_refl).
Defined.

(** The config file is what [load_config] returns, parsed. *)
Lemma load_config_returns_the_file (lib : PyLib) (env : Env) (w w1 : World)
    (cfg : json) (text : string) :
  file_of ConfigFile (fs w) = Some text ->
  load_config lib env w = (Ret cfg, w1) ->
  json_loads lib text = Some cfg /\ w1 = log w [ERead ConfigFile].
Proof.
  intros Hfile. unfold load_config, json_load.
  destruct w as [[[c o b] |] s t]; simpl in Hfile; [subst c | discriminate].
  step. destruct (json_loads lib text) as [v |]; simpl.
  - intros H. injection H as <- <-. split; reflexivity.
  - destruct (is_json_decode_error (json_error lib text)); simpl; discriminate.
Qed.

(** X8: what one run saves the next run finds: when [load_config]
    returns a configuration and the decoder reads back what the encoder
    writes for it, a second [load_config] -- in any environment -- returns
    the same configuration, reads the config file and nothing else, and
    changes nothing on disk. *)
Theorem load_config_twice (lib : PyLib) (env env2 : Env) (w w1 : World)
    (cfg : json) :
  load_config lib env w = (Ret cfg, w1) ->
  json_loads lib (json_dumps lib cfg) = Some cfg ->
  load_config lib env2 w1 = (Ret cfg, log w1 [ERead ConfigFile]).
Proof.
  intros Hload Hcodec.
  destruct (file_of ConfigFile (fs w)) as [text |] eqn:Hfile.
  - destruct (load_config_returns_the_file lib env w w1 cfg text Hfile Hload)
      as (Hv & ->).
    destruct w as [[d |] s t]; [| discriminate Hfile].
    now apply (load_config_existing lib env2 _ d text).
  - destruct (load_config_created lib env w w1 cfg Hfile Hload)
      as (key & _ & _ & _ & _ & Hsaved).
    destruct w1 as [[d1 |] s1 t1]; [| discriminate Hsaved].
    now apply (load_config_existing lib env2 _ d1 (json_dumps lib cfg)).
Qed.

Lemma load_config_twice_witness :
  json_loads (Scenario.saving_lib (new_config "k3y"))
    (json_dumps (Scenario.saving_lib (new_config "k3y")) (new_config "k3y"))
  = Some (new_config "k3y")
  /\ fst (load_config (Scenario.saving_lib (new_config "k3y")) (Sample.piped [])
            (snd (load_config (Scenario.saving_lib (new_config "k3y"))
                    (Sample.terminal ["hi"])
                    (Sample.start None ("k3y" ++ PyStr.nl)))))
     = Ret (new_config "k3y").
Proof.
  split; [reflexivity |].
  exact (f_equal fst
    (load_config_twice (Scenario.saving_lib (new_config "k3y"))
       (Sample.terminal ["hi"]) (Sample.piped [])
       (Sample.start None ("k3y" ++ PyStr.nl))
       (snd (load_config (Scenario.saving_lib (new_config "k3y"))
               (Sample.terminal ["hi"])
               (Sample.start None ("k3y" ++ PyStr.nl))))
       (new_config "k3y") eq_refl eq_refl)).
Defined.

(** ** The renderer on the documented shapes *)

(** With no prompt feedback, or with one that has no block reason, the
    safety check prints nothing and lets the renderer go on. *)
Lemma safety_check_clear (lib : PyLib) (data : json) (w : World) :
  feedback_clear data = true -> safety_check lib data w = (Ret tt, w).
Proof.
  unfold feedback_clear, safety_check.
  destruct data as [| b | z | f | s | items | fields]; try discriminate.
  step.
  destruct (Py.lookup "promptFeedback" fields)
    as [[| b | z | f | s | items | feedback] |]; try discriminate; simpl;
    [| reflexivity].
  destruct (Py.lookup "blockReason" feedback); [discriminate | reflexivity].
Qed.

(** The output step on a first candidate with the text of a first part. *)
Lemma output_success (lib : PyLib) (debug_mode : bool)
    (fields : list (string * json)) (cand : json) (rest : list json)
    (content : json) (text : string) (w : World) :
  Py.lookup "candidates" fields = Some (JArr (cand :: rest)) ->
  content_of cand = Some content ->
  first_part_text content = Some text ->
  output lib debug_mode (JObj fields) w
  = (Ret tt, log w [EPrint (GREEN ++ PyStr.strip text ++ RESET)]).
Proof.
  intros Hc Hcontent Htext. unfold output. step. rewrite Hc. simpl.
  unfold content_of in Hcontent.
  destruct cand as [| b | z | f | s | items | cfields]; try discriminate Hcontent.
  simpl. rewrite Hcontent. simpl.
  unfold first_part_text in Htext.
  destruct content as [| b | z | f | s | items | pfields]; try discriminate Htext.
  simpl.
  destruct (Py.lookup "parts" pfields) as [[| b | z | f | s | items | g] |];
    try discriminate Htext.
  destruct items as [| [| b | z | f | s | items' | part] others];
    try discriminate Htext.
  simpl.
  destruct (Py.lookup "text" part) as [[| b | z | f | s | items' | g] |];
    try discriminate Htext.
  injection Htext as ->. reflexivity.
Qed.

(** X9: a response object whose prompt feedback is absent, or is an
    object that holds no block reason, and whose first candidate holds a
    content object with the text of a first part is answered with that
    text, trimmed, in green; whatever candidates follow the first are
    ignored.  In a run that got as far as the request and was answered
    with status 200 and such a body, this is the last output and the
    exit status is 0. *)
Theorem first_candidate_is_printed (lib : PyLib) (debug_mode : bool)
    (fields : list (string * json)) (cand : json) (rest : list json)
    (content : json) (text : string) (w : World) :
  feedback_clear (JObj fields) = true ->
  Py.lookup "candidates" fields = Some (JArr (cand :: rest)) ->
  content_of cand = Some content ->
  first_part_text content = Some text ->
  let line := EPrint (GREEN ++ PyStr.strip text ++ RESET) in
  render lib debug_mode (JObj fields) w = (Ret tt, log w [line])
  /\ forall env w0 api_url payload body,
      reaches_request lib env w0 api_url payload w ->
      http env api_url payload = PostResponse 200 body ->
      json_loads lib body = Some (JObj fields) ->
      main lib env w0
      = (Ret tt,
         log w (EPost api_url payload
                :: debug_status_line (PyStr.mem "--debug" (argv env)) 200
                ++ [line]))
      /\ exit_status (fst (main lib env w0)) = 0.
Proof.
  intros Hclear Hc Hcontent Htext line.
  assert (Hrender : forall dbg w', render lib dbg (JObj fields) w' = (Ret tt, log w' [line])).
  { intros dbg w'. unfold render.
    rewrite (bind_returns _ _ _ _ _ (safety_check_clear lib _ w' Hclear)).
    now apply (output_success lib dbg fields cand rest content text). }
  split; [apply Hrender |].
  intros env w0 api_url payload body Hreach Hpost Hdata.
  rewrite (main_ends_as_request _ _ _ _ _ _ Hreach).
  rewrite (send_request_response lib env _ _ _ _ _ _ Hpost).
  rewrite (try_except_returns _ _ _ _ _ tt
             (eq_trans (handle_response_ok lib _ body _ _ Hdata) (Hrender _ _))).
  rewrite !log_log. split; reflexivity.
Qed.

Lemma first_candidate_is_printed_witness :
  first_part_text (JObj [("parts", JArr [JObj [("text", JStr " 42 ")]])]) = Some " 42 "
  /\ render Sample.lib true
       (JObj [("candidates",
               JArr [JObj [("content",
                            JObj [("parts", JArr [JObj [("text", JStr " 42 ")]])])];
                     JStr "ignored"])])
       (Sample.start None "")
     = (Ret tt, log (Sample.start None "") [EPrint (GREEN ++ "42" ++ RESET)]).
Proof.
  split; [reflexivity |].
  exact (proj1
    (first_candidate_is_printed Sample.lib true
       [("candidates",
         JArr [JObj [("content",
                      JObj [("parts", JArr [JObj [("text", JStr " 42 ")]])])];
               JStr "ignored"])]
       (JObj [("content", JObj [("parts", JArr [JObj [("text", JStr " 42 ")]])])])
       [JStr "ignored"]
       (JObj [("parts", JArr [JObj [("text", JStr " 42 ")]])]) " 42 "
       (Sample.start None "") eq_refl eq_refl eq_refl eq_refl)).
Defined.

(** X10: a response object whose prompt feedback is absent, or is an
    object that holds no block reason, gets a notice, and no error, when
    its content is absent: [[No content returned]] when the first
    candidate is an object without [content], [[Error] Invalid response
    format] when the response has no [candidates] key.  Debug mode
    prints the response after the notice.  The renderer returns
    normally. *)
Theorem absent_content_gets_a_notice (lib : PyLib) (debug_mode : bool)
    (fields : list (string * json)) (w : World) :
  feedback_clear (JObj fields) = true ->
  (forall cfields rest,
      Py.lookup "candidates" fields = Some (JArr (JObj cfields :: rest)) ->
      Py.lookup "content" cfields = None ->
      render lib debug_mode (JObj fields) w
      = (Ret tt,
         log w (EPrint "[No content returned]"
                :: debug_dump lib debug_mode (JObj fields))))
  /\ (Py.lookup "candidates" fields = None ->
      render lib debug_mode (JObj fields) w
      = (Ret tt,
         log w (EPrint "[Error] Invalid response format"
                :: debug_dump lib debug_mode (JObj fields)))).
Proof.
  intros Hclear. split.
  - intros cfields rest Hc Hcontent. unfold render.
    rewrite (bind_returns _ _ _ _ _ (safety_check_clear lib _ w Hclear)).
    unfold output, debug_dump. step. rewrite Hc. simpl. rewrite Hcontent. simpl.
    destruct debug_mode; simpl; settle.
  - intros Hc. unfold render.
    rewrite (bind_returns _ _ _ _ _ (safety_check_clear lib _ w Hclear)).
    unfold output, debug_dump. step. rewrite Hc. simpl.
    destruct debug_mode; simpl; settle.
Qed.

Lemma absent_content_gets_a_notice_witness :
  feedback_clear (JObj [("candidates", JArr [JObj []])]) = true
  /\ render Sample.lib true (JObj [("candidates", JArr [JObj []])]) (Sample.start None "")
     = (Ret tt,
        log (Sample.start None "")
          [EPrint "[No content returned]"; EPrint "<repr>"]).
Proof.
  split; [reflexivity |].
  exact (proj1
    (absent_content_gets_a_notice Sample.lib true [("candidates", JArr [JObj []])]
       (Sample.start None "") eq_refl) [] [] eq_refl eq_refl).
Defined.

(** X11: a response with status 200 whose body is not JSON is reported
    as a connection error: [response.json()] raises inside the [try]
    block, the handler prints the line for whatever exception that is,
    and the exit status is 0. *)
Theorem unparsable_body_is_connection_error (lib : PyLib) (env : Env)
    (w w3 : World) (api_url : string) (payload : json) (body : string) :
  reaches_request lib env w api_url payload w3 ->
  http env api_url payload = PostResponse 200 body ->
  json_loads lib body = None ->
  main lib env w
  = (Ret tt,
     log w3 (EPost api_url payload
             :: debug_status_line (PyStr.mem "--debug" (argv env)) 200
             ++ [connection_error lib (json_error lib body)]))
  /\ exit_status (fst (main lib env w)) = 0.
Proof.
  intros Hreach Hpost Hbody.
  rewrite (main_ends_as_request _ _ _ _ _ _ Hreach).
  rewrite (send_request_response lib env _ _ _ _ _ _ Hpost).
  assert (Hraise : handle_response lib (PyStr.mem "--debug" (argv env)) 200 body
                     (log w3 [EPost api_url payload])
                   = (Raise (json_error lib body),
                      log (log w3 [EPost api_url payload])
                        (debug_status_line (PyStr.mem "--debug" (argv env)) 200))).
  { unfold handle_response, debug_status_line, json_load.
    destruct (PyStr.mem "--debug" (argv env)); step; rewrite Hbody;
      [reflexivity | now rewrite log_nil]. }
  rewrite (try_except_catches _ _ _ _ _ _ Hraise eq_refl).
  unfold emit. rewrite !log_log. split; reflexivity.
Qed.

Lemma unparsable_body_is_connection_error_witness :
  json_loads Sample.lib "<html>Bad gateway</html>" = None
  /\ exit_status
       (fst (main Sample.lib
               (Sample.online ["hi"] (PostResponse 200 "<html>Bad gateway</html>"))
               (Sample.start (Sample.with_config Sample.key_text) "")))
     = 0.
Proof.
  split; [reflexivity |].
  exact (proj2
    (unparsable_body_is_connection_error Sample.lib _ _ _ _ _ "<html>Bad gateway</html>"
       (sample_reaches_request (PostResponse 200 "<html>Bad gateway</html>"))
       eq_refl eq_refl)).
Defined.

(** ** Configurations of an unexpected type *)

(** Before the request is built, [main] ends as the building does. *)
Lemma main_stops_building (lib : PyLib) (env : Env) (w w1 w2 w3 : World)
    (config : json) (user_input : string) (e : exn) :
  load_config lib env w = (Ret config, w1) ->
  PyStr.mem "--help" (argv env) || PyStr.mem "-h" (argv env) = false ->
  PyStr.mem "--config" (argv env) = false ->
  input_handling env (non_flag_args (argv env)) w1 = (Ret user_input, w2) ->
  prepare_request lib config user_input (PyStr.mem "--debug" (argv env)) w2
    = (Raise e, w3) ->
  main lib env w = (Raise e, w3).
Proof.
  intros Hload Hhelp Hcfg Hin Hreq.
  rewrite main_after_load, (bind_returns _ _ _ _ _ Hload).
  unfold after_load. rewrite Hhelp, Hcfg.
  change (when false print_help) with (ret tt).
  change (when false (open_editor env)) with (ret tt).
  rewrite !bind_ret, (bind_returns _ _ _ _ _ Hin).
  now apply bind_raises.
Qed.

(** X12: a config file that holds valid JSON which is not an object --
    a list, a string, a number -- is returned by [load_config] as it is,
    and [main] fails on it when it asks for the [api_key]: the
    [AttributeError] is raised outside the [try] block, so the run ends
    with exit status 1 right after the query has been put together, and
    nothing is posted. *)
Theorem non_dict_config_crashes (lib : PyLib) (env : Env) (w w1 w2 : World)
    (config : json) (user_input : string) :
  load_config lib env w = (Ret config, w1) ->
  is_dict config = false ->
  PyStr.mem "--help" (argv env) || PyStr.mem "-h" (argv env) = false ->
  PyStr.mem "--config" (argv env) = false ->
  input_handling env (non_flag_args (argv env)) w1 = (Ret user_input, w2) ->
  main lib env w = (Raise AttributeError, w2)
  /\ exit_status (fst (main lib env w)) = 1.
Proof.
  intros Hload Hdict Hhelp Hcfg Hin.
  assert (Hreq : prepare_request lib config user_input
                   (PyStr.mem "--debug" (argv env)) w2
                 = (Raise AttributeError, w2)).
  { destruct config; try discriminate Hdict; reflexivity. }
  rewrite (main_stops_building lib env w w1 w2 w2 config user_input _
             Hload Hhelp Hcfg Hin Hreq).
  split; reflexivity.
Qed.

Lemma non_dict_config_crashes_witness :
  is_dict (JArr []) = false
  /\ main (Scenario.saving_lib (JArr [])) (Sample.terminal ["hi"])
       (Sample.start (Sample.with_config "<saved>") "")
     = (Raise AttributeError,
        log (Sample.start (Sample.with_config "<saved>") "") [ERead ConfigFile]).
Proof.
  split; [reflexivity |].
  exact (proj1
    (non_dict_config_crashes (Scenario.saving_lib (JArr [])) (Sample.terminal ["hi"])
       (Sample.start (Sample.with_config "<saved>") "")
       (log (Sample.start (Sample.with_config "<saved>") "") [ERead ConfigFile])
       (log (Sample.start (Sample.with_config "<saved>") "") [ERead ConfigFile])
       (JArr []) "hi" eq_refl eq_refl eq_refl eq_refl eq_refl)).
Defined.

(** X13: a [generation_config] that is not an object is passed to the
    remote API as it is -- unless [--debug] is given: the debug line
    asks it for its temperature, the [AttributeError] is raised outside
    the [try] block, and the run ends with exit status 1 before the
    request is sent. *)
Theorem debug_needs_a_dict_generation_config (lib : PyLib)
    (fields : list (string * json)) (g : json) (user_input : string) (w : World) :
  Py.lookup "generation_config" fields = Some g ->
  is_dict g = false ->
  (exists api_url system_instr,
      prepare_request lib (JObj fields) user_input false w
      = (Ret (api_url, build_payload user_input system_instr g), w))
  /\ prepare_request lib (JObj fields) user_input true w = (Raise AttributeError, w)
  /\ forall env w0 w1,
      load_config lib env w0 = (Ret (JObj fields), w1) ->
      PyStr.mem "--help" (argv env) || PyStr.mem "-h" (argv env) = false ->
      PyStr.mem "--config" (argv env) = false ->
      input_handling env (non_flag_args (argv env)) w1 = (Ret user_input, w) ->
      PyStr.mem "--debug" (argv env) = true ->
      main lib env w0 = (Raise AttributeError, w)
      /\ exit_status (fst (main lib env w0)) = 1.
Proof.
  intros Hg Hdict.
  assert (Hdebug : prepare_request lib (JObj fields) user_input true w
                   = (Raise AttributeError, w)).
  { unfold prepare_request. step. rewrite Hg.
    destruct g; try discriminate Hdict; reflexivity. }
  split.
  { do 2 eexists. unfold prepare_request. step. rewrite Hg. reflexivity. }
  split; [exact Hdebug |].
  intros env w0 w1 Hload Hhelp Hcfg Hin Hflag.
  rewrite <- Hflag in Hdebug.
  rewrite (main_stops_building lib env w0 w1 w w (JObj fields) user_input _
             Hload Hhelp Hcfg Hin Hdebug).
  split; reflexivity.
Qed.

Lemma debug_needs_a_dict_generation_config_witness :
  is_dict (JInt 1) = false
  /\ prepare_request Sample.lib (JObj [("api_key", JStr "k3y"); ("generation_config", JInt 1)])
       "hi" true (Sample.start None "")
     = (Raise AttributeError, Sample.start None "").
Proof.
  split; [reflexivity |].
  exact (proj1 (proj2
    (debug_needs_a_dict_generation_config Sample.lib
       [("api_key", JStr "k3y"); ("generation_config", JInt 1)] (JInt 1) "hi"
       (Sample.start None "") eq_refl eq_refl))).
Defined.

(** ** What a run never does *)

Lemma exits_bind {A B} (m : M A) (k : A -> M B) :
  exits_0_or_1 m -> (forall a, exits_0_or_1 (k a)) -> exits_0_or_1 (bind m k).
Proof.
  intros Hm Hk w c. unfold bind. specialize (Hm w).
  destruct (m w) as [[a | c' | e] w']; simpl in *.
  - apply Hk.
  - intros H. injection H as <-. now apply Hm.
  - discriminate.
Qed.

Lemma exits_try {A} (catches : exn -> bool) (body : M A) (handler : exn -> M A) :
  exits_0_or_1 body -> (forall e, exits_0_or_1 (handler e)) ->
  exits_0_or_1 (try_except catches body handler).
Proof.
  intros Hb Hh w c. unfold try_except. specialize (Hb w).
  destruct (body w) as [[a | c' | e] w']; simpl in *.
  - discriminate.
  - intros H. injection H as <-. now apply Hb.
  - destruct (catches e); [apply Hh | discriminate].
Qed.

Lemma exits_when (c : bool) (m : M unit) : exits_0_or_1 m -> exits_0_or_1 (when c m).
Proof. destruct c; [trivial | intros _ w c H; discriminate H]. Qed.

Lemma exits_lift {A} (x : attempt A) : exits_0_or_1 (lift x).
Proof. destruct x; intros w c H; discriminate H. Qed.

Lemma exits_input (prompt : string) : exits_0_or_1 (input prompt).
Proof.
  intros w c. unfold input. destruct (PyStr.is_empty (stdin w)); discriminate.
Qed.

Lemma exits_print_help {A} : exits_0_or_1 (@print_help A).
Proof. intros w c. rewrite print_help_run. intros H. injection H as <-. now left. Qed.

Ltac exit_codes :=
  repeat first
    [ apply exits_bind; [| intros ?]
    | apply exits_try; [| intros ?]
    | apply exits_when
    | apply exits_lift
    | apply exits_input
    | apply exits_print_help
    | match goal with
      | |- exits_0_or_1 (if ?b then _ else _) => destruct b
      | |- exits_0_or_1 (match ?x with _ => _ end) => destruct x
      end
    | intros ? ? H; simpl in H; first
        [ discriminate H
        | injection H as <-; first [now left | now right] ] ].

(** X14: the script ends a run by [sys.exit] with code 0 or 1 only:
    whatever the files, the command line, the input and the network, a
    run of [main] that ends by a [sys.exit] of the script does so with
    one of these two codes. *)
Theorem sys_exit_code_is_0_or_1 (lib : PyLib) (env : Env) (w : World) (c : Z) :
  fst (main lib env w) = Exit c -> c = 0 \/ c = 1.
Proof.
  assert (H : exits_0_or_1 (main lib env)).
  { unfold main, load_config, open_editor, subprocess_call, input_handling,
      prepare_request, send_request, exchange, handle_response, render,
      safety_check, output, post, json_load, print, dir_exists, file_exists,
      mkdir, read_file, write_file, rename.
    exit_codes. }
  apply H.
Qed.

Lemma sys_exit_code_is_0_or_1_witness :
  fst (main Sample.lib (Sample.terminal ["--help"]) (Sample.start None PyStr.nl))
  = Exit 1
  /\ (1 = 0 \/ 1 = 1).
Proof.
  split; [reflexivity |].
  exact (sys_exit_code_is_0_or_1 Sample.lib (Sample.terminal ["--help"])
           (Sample.start None PyStr.nl) 1 eq_refl).
Defined.

Lemma posts_app (a b : list event) : posts (a ++ b) = (posts a + posts b)%nat.
Proof. unfold posts. now rewrite filter_app, length_app. Qed.

Lemma posts_none (t : list event) : forallb no_post t = true -> posts t = 0%nat.
Proof.
  unfold posts, no_post. induction t as [| e t IH]; simpl; [reflexivity |].
  intros H. apply andb_prop in H. destruct H as [He Ht].
  destruct (is_post e); [discriminate He | now apply IH].
Qed.

Lemma posts_at_most_silent {A} (m : M A) : emits no_post m -> posts_at_most 0 m.
Proof.
  intros H w. destruct (H w) as (t & Ht & HP). exists t. split; [exact Ht |].
  now rewrite (posts_none t HP).
Qed.

Lemma posts_at_most_bind {A B} (n1 n2 : nat) (m : M A) (k : A -> M B) :
  posts_at_most n1 m -> (forall a, posts_at_most n2 (k a)) ->
  posts_at_most (n1 + n2) (bind m k).
Proof.
  intros Hm Hk w. unfold bind.
  destruct (Hm w) as (t & Ht & Hn).
  destruct (m w) as [[a | c | e] w']; simpl in Ht;
    try (exists t; split; [exact Ht | lia]).
  destruct (Hk a w') as (t' & Ht' & Hn').
  exists (t ++ t')%list. rewrite Ht', Ht, app_assoc, posts_app. split; [reflexivity | lia].
Qed.

(** The request calls [requests.post] once: the call comes first and
    none follows. *)
Lemma send_request_posts_once (lib : PyLib) (env : Env) (debug_mode : bool)
    (api_url : string) (payload : json) :
  posts_at_most 1 (send_request lib env debug_mode api_url payload).
Proof.
  intros w.
  destruct (http env api_url payload) as [e | status_code text] eqn:H.
  - rewrite (send_request_network_error lib env _ _ _ _ _ H).
    eexists. split; [reflexivity |]. unfold posts. simpl. lia.
  - rewrite (send_request_response lib env _ _ _ _ _ _ H).
    assert (Hrest : emits no_post
                      (try_except (fun _ => true)
                         (handle_response lib debug_mode status_code text)
                         (fun e => emit (connection_error lib e)))).
    { unfold handle_response, render, safety_check, output, json_load, print.
      effects. }
    destruct (Hrest (log w [EPost api_url payload])) as (t & Ht & HP).
    exists (EPost api_url payload :: t). rewrite Ht. unfold log; simpl.
    rewrite <- app_assoc. split; [reflexivity |].
    change (EPost api_url payload :: t) with ([EPost api_url payload] ++ t)%list.
    rewrite posts_app, (posts_none t HP). unfold posts. simpl. lia.
Qed.

(** X15: the script calls [requests.post] at most once in a run:
    whatever the files, the command line, the input and the outcome of
    the call, the log of a run holds at most one call -- the script has
    no retry.  What [requests] sends on the wire for that one call is not
    counted. *)
Theorem at_most_one_post (lib : PyLib) (env : Env) (w : World) :
  exists t,
    trace (snd (main lib env w)) = (trace w ++ t)%list /\ (posts t <= 1)%nat.
Proof.
  assert (H : posts_at_most (0 + (0 + (0 + (0 + (0 + 1))))) (main lib env)).
  { unfold main.
    apply posts_at_most_bind; [| intros config].
    { apply posts_at_most_silent.
      apply (emits_weaken offline no_post); [now intros [] | apply load_config_offline]. }
    apply posts_at_most_bind; [| intros _].
    { apply posts_at_most_silent. apply emits_when. now apply print_help_emits. }
    apply posts_at_most_bind; [| intros _].
    { apply posts_at_most_silent. unfold open_editor, subprocess_call, print. effects. }
    apply posts_at_most_bind; [| intros user_input].
    { apply posts_at_most_silent. unfold input_handling.
      effects; now apply print_help_emits. }
    apply posts_at_most_bind; [| intros request].
    { apply posts_at_most_silent. unfold prepare_request, print. effects. }
    apply send_request_posts_once. }
  exact (H w).
Qed.

(** ** Piped input *)

(** A configuration that is an object gives a request when debug mode is
    off, whatever its fields hold. *)
Lemma prepare_request_quiet (lib : PyLib) (fields : list (string * json))
    (user_input : string) (w : World) :
  exists api_url system_instr gen_config,
    prepare_request lib (JObj fields) user_input false w
    = (Ret (api_url, build_payload user_input system_instr gen_config), w).
Proof. do 3 eexists. reflexivity. Qed.

(** X16: piped input that is empty or blank is no reason to show the
    help text: without arguments the query is the empty string, and it is
    sent.  With a configuration that is an object, no flags and nothing
    but whitespace on the pipe, the run reads standard input and posts a
    payload whose content text is empty. *)
Theorem blank_piped_input_is_sent (lib : PyLib) (env : Env) (w w1 : World)
    (fields : list (string * json)) :
  load_config lib env w = (Ret (JObj fields), w1) ->
  PyStr.mem "--help" (argv env) || PyStr.mem "-h" (argv env) = false ->
  PyStr.mem "--config" (argv env) = false ->
  PyStr.mem "--debug" (argv env) = false ->
  isatty env = false ->
  non_flag_args (argv env) = [] ->
  PyStr.strip (stdin w1) = "" ->
  exists api_url system_instr gen_config t,
    content_text (build_payload "" system_instr gen_config) = Ok (JStr "")
    /\ trace (snd (main lib env w))
       = (trace w1
          ++ EStdinRead
          :: EPost api_url (build_payload "" system_instr gen_config)
          :: t)%list.
Proof.
  intros Hload Hhelp Hcfg Hdebug Htty Hargs Hblank.
  set (w2 := {| fs := fs w1; stdin := ""; trace := trace w1 ++ [EStdinRead] |}).
  assert (Hin : input_handling env (non_flag_args (argv env)) w1 = (Ret "", w2)).
  { unfold input_handling. rewrite Htty, Hargs. simpl.
    unfold bind, stdin_read, ret. now rewrite Hblank. }
  destruct (prepare_request_quiet lib fields "" w2)
    as (api_url & system_instr & gen_config & Hreq).
  rewrite <- Hdebug in Hreq.
  rewrite (main_reaches_request lib env w w1 w2 w2 (JObj fields) "" _ _
             Hload Hhelp Hcfg Hin Hreq).
  destruct (send_request_posts_first lib env (PyStr.mem "--debug" (argv env))
              api_url (build_payload "" system_instr gen_config) w2) as (t & Ht).
  exists api_url, system_instr, gen_config, t. split; [reflexivity |].
  rewrite Ht. unfold w2. simpl. now rewrite <- app_assoc.
Qed.

Lemma blank_piped_input_is_sent_witness :
  PyStr.strip (stdin (log (Sample.start (Sample.with_config Sample.key_text) PyStr.nl)
                        [ERead ConfigFile])) = ""
  /\ exists api_url system_instr gen_config t,
      content_text (build_payload "" system_instr gen_config) = Ok (JStr "")
      /\ trace (snd (main Sample.lib (Sample.piped [])
                       (Sample.start (Sample.with_config Sample.key_text) PyStr.nl)))
         = ([ERead ConfigFile]
            ++ EStdinRead
            :: EPost api_url (build_payload "" system_instr gen_config)
            :: t)%list.
Proof.
  split; [reflexivity |].
  exact (blank_piped_input_is_sent Sample.lib (Sample.piped [])
           (Sample.start (Sample.with_config Sample.key_text) PyStr.nl)
           (log (Sample.start (Sample.with_config Sample.key_text) PyStr.nl)
              [ERead ConfigFile])
           [("api_key", JStr "k3y")]
           eq_refl eq_refl eq_refl eq_refl eq_refl eq_refl eq_refl).
Defined.

(** X17: on a first run with piped input, the prompt for the key reads
    from the pipe: the first line of the piped text becomes the key that
    is saved, and only what follows that line, trimmed, becomes the
    query (with the arguments after a newline when there are any). *)
Theorem first_run_takes_the_key_from_the_pipe (lib : PyLib) (env : Env) (w : World) :
  file_of ConfigFile (fs w) = None ->
  file_of OldKeyFile (fs w) = None ->
  PyStr.is_empty (stdin w) = false ->
  PyStr.is_empty (PyStr.strip (fst (split_line (stdin w)))) = false ->
  isatty env = false ->
  let args := non_flag_args (argv env) in
  exists w1,
    load_config lib env w
    = (Ret (new_config (PyStr.strip (fst (split_line (stdin w))))), w1)
    /\ input_handling env args w1
       = (Ret (PyStr.strip (snd (split_line (stdin w)))
               ++ match args with
                  | [] => ""
                  | _ => PyStr.nl ++ PyStr.join " " args
                  end),
          {| fs := fs w1; stdin := ""; trace := trace w1 ++ [EStdinRead] |}).
Proof.
  intros Hcfg Hold Hin Hkey Htty args.
  eexists. split.
  - exact (load_config_first_run lib env w Hcfg Hold Hin Hkey).
  - unfold input_handling. rewrite Htty. simpl. unfold bind, stdin_read, ret. simpl.
    destruct args; [now rewrite append_empty | reflexivity].
Qed.

Lemma first_run_takes_the_key_from_the_pipe_witness :
  PyStr.is_empty
    (PyStr.strip (fst (split_line ("k3y" ++ PyStr.nl ++ "what is this?" ++ PyStr.nl))))
  = false
  /\ exists w1,
      load_config Sample.lib (Sample.piped ["briefly"])
        (Sample.start None ("k3y" ++ PyStr.nl ++ "what is this?" ++ PyStr.nl))
      = (Ret (new_config "k3y"), w1)
      /\ fst (input_handling (Sample.piped ["briefly"]) ["briefly"] w1)
         = Ret ("what is this?" ++ PyStr.nl ++ "briefly").
Proof.
  split; [reflexivity |].
  destruct (first_run_takes_the_key_from_the_pipe Sample.lib (Sample.piped ["briefly"])
              (Sample.start None ("k3y" ++ PyStr.nl ++ "what is this?" ++ PyStr.nl))
              eq_refl eq_refl eq_refl eq_refl eq_refl) as (w1 & Hload & Hin).
  exists w1. split; [exact Hload |].
  exact (f_equal fst Hin).
Defined.

(** ** Settings that are missing *)

(** X18: a configuration that is an object is never rejected for what it
    lacks: without [model_name] the URL names [gemini-2.5-flash], without
    [system_instruction] the instruction is the empty string, without
    [generation_config] the generation configuration is the empty
    object -- and without [api_key] the key in the URL is the text
    [None].  Debug mode then reports the temperature as [None]. *)
Theorem missing_settings_fall_back (lib : PyLib) (fields : list (string * json))
    (user_input : string) (debug_mode : bool) (w : World) :
  Py.lookup "api_key" fields = None ->
  Py.lookup "model_name" fields = None ->
  Py.lookup "system_instruction" fields = None ->
  Py.lookup "generation_config" fields = None ->
  prepare_request lib (JObj fields) user_input debug_mode w
  = (Ret ("https://generativelanguage.googleapis.com/v1beta/models/"
          ++ "gemini-2.5-flash:generateContent?key=None",
          build_payload user_input (JStr "") (JObj [])),
     log w (if debug_mode
            then [EPrint "[Debug] Model: gemini-2.5-flash | Temp: None"]
            else [])).
Proof.
  intros Hkey Hmodel Hinstr Hgen. unfold prepare_request. step.
  rewrite Hkey, Hmodel, Hinstr, Hgen.
  destruct debug_mode; simpl; [reflexivity | now rewrite log_nil].
Qed.

Lemma missing_settings_fall_back_witness :
  Py.lookup "api_key" [("theme", JStr "dark")] = None
  /\ prepare_request Sample.lib (JObj [("theme", JStr "dark")]) "hi" true
       (Sample.start None "")
     = (Ret ("https://generativelanguage.googleapis.com/v1beta/models/"
             ++ "gemini-2.5-flash:generateContent?key=None",
             build_payload "hi" (JStr "") (JObj [])),
        log (Sample.start None "")
          [EPrint "[Debug] Model: gemini-2.5-flash | Temp: None"]).
Proof.
  split; [reflexivity |].
  exact (missing_settings_fall_back Sample.lib [("theme", JStr "dark")] "hi" true
           (Sample.start None "") eq_refl eq_refl eq_refl eq_refl).
Defined.
